(** * Local code execution service: a model of
    [backend/app/services/code_execution_service.py]

    The service writes a submission to a temporary directory, compiles it
    when the language needs it, runs it with a wall-clock deadline and maps
    what happened to an [ExecutionResult].  [check_solution] runs one
    submission against a list of test cases and compares outputs.

    The embedding follows the Python text:
    - a Python [str] is a sequence of Unicode code points, [bytes] a list of
      bytes; [bytes.decode()] and [str.encode()] are the strict UTF-8 codec
      and can fail, [str.strip()] removes the characters Python counts as
      white space;
    - the operating system is an oracle ([world]) that answers each request
      the code makes (create a directory, write a file, start a process,
      delete a tree), and a [host] state that records what exists afterwards;
    - exceptions, [try]/[except]/[finally] and early [return] are written
      with a small state-and-exception monad. *)

From Stdlib Require Import ZArith NArith QArith String Ascii List Bool Lia Lqa.
From Stdlib.Strings Require Import Byte.
From stdpp Require Import gmap list.
Import ListNotations.

(** ** Python text and bytes *)

Module PyStr.

(** A [str] is a list of code points, [bytes] a list of bytes. *)
Definition pystr := list N.
Definition bytes := list byte.

(** String literals of the source (all ASCII). *)
Definition lit (s : string) : pystr := map N_of_ascii (list_ascii_of_string s).

(** Truth value of a [str] / [bytes] / [Optional[str]] in a condition. *)
Definition truthy {A} (l : list A) : bool :=
  match l with [] => false | _ :: _ => true end.

Definition opt_truthy {A} (o : option (list A)) : bool :=
  match o with Some l => truthy l | None => false end.

(** [x or y] on optional text: [x] when it is truthy, else [y]. *)
Definition py_or {A} (x y : option (list A)) : option (list A) :=
  if opt_truthy x then x else y.

(** [x or ''] *)
Definition or_empty (x : option pystr) : pystr :=
  match x with Some ((_ :: _) as s) => s | _ => [] end.

(** *** The UTF-8 codec, [errors='strict'] *)

Definition is_cont (n : N) : bool := (128 <=? n)%N && (n <? 192)%N.
Definition is_surrogate (c : N) : bool := (55296 <=? c)%N && (c <=? 57343)%N.

(** [bytes.decode()]: [None] stands for [UnicodeDecodeError].  Over-long
    forms, surrogates, values above U+10FFFF, stray continuation bytes and
    truncated sequences are rejected. *)
Fixpoint decode (bs : bytes) : option pystr :=
  match bs with
  | [] => Some []
  | b0 :: r0 =>
    let n0 := Byte.to_N b0 in
    if (n0 <? 128)%N then option_map (cons n0) (decode r0)
    else if (n0 <? 194)%N then None
    else if (n0 <? 224)%N then
      match r0 with
      | b1 :: r1 =>
        let n1 := Byte.to_N b1 in
        if is_cont n1
        then option_map (cons ((n0 - 192) * 64 + (n1 - 128))%N) (decode r1)
        else None
      | _ => None
      end
    else if (n0 <? 240)%N then
      match r0 with
      | b1 :: b2 :: r2 =>
        let n1 := Byte.to_N b1 in
        let n2 := Byte.to_N b2 in
        let c := ((n0 - 224) * 4096 + (n1 - 128) * 64 + (n2 - 128))%N in
        if is_cont n1 && is_cont n2 && (2048 <=? c)%N && negb (is_surrogate c)
        then option_map (cons c) (decode r2)
        else None
      | _ => None
      end
    else if (n0 <? 245)%N then
      match r0 with
      | b1 :: b2 :: b3 :: r3 =>
        let n1 := Byte.to_N b1 in
        let n2 := Byte.to_N b2 in
        let n3 := Byte.to_N b3 in
        let c := ((n0 - 240) * 262144 + (n1 - 128) * 4096
                  + (n2 - 128) * 64 + (n3 - 128))%N in
        if is_cont n1 && is_cont n2 && is_cont n3
           && (65536 <=? c)%N && (c <=? 1114111)%N
        then option_map (cons c) (decode r3)
        else None
      | _ => None
      end
    else None
  end.

Definition byte_of (n : N) : byte :=
  match Byte.of_N n with Some b => b | None => x00 end.

(** One code point to its UTF-8 bytes; [None] stands for
    [UnicodeEncodeError] (a lone surrogate). *)
Definition encode_cp (c : N) : option bytes :=
  if (c <? 128)%N then Some [byte_of c]
  else if (c <? 2048)%N then
    Some [byte_of (192 + c / 64); byte_of (128 + c mod 64)]
  else if is_surrogate c then None
  else if (c <? 65536)%N then
    Some [byte_of (224 + c / 4096); byte_of (128 + (c / 64) mod 64);
          byte_of (128 + c mod 64)]
  else if (c <=? 1114111)%N then
    Some [byte_of (240 + c / 262144); byte_of (128 + (c / 4096) mod 64);
          byte_of (128 + (c / 64) mod 64); byte_of (128 + c mod 64)]
  else None.

(** [str.encode()] *)
Fixpoint encode (s : pystr) : option bytes :=
  match s with
  | [] => Some []
  | c :: r =>
    match encode_cp c, encode r with
    | Some bs, Some rest => Some (bs ++ rest)
    | _, _ => None
    end
  end.

(** *** White space and [str.strip()] *)

(** The code points for which [str.isspace()] holds; these are the ones
    [strip()] removes when called without an argument. *)
Definition is_space (c : N) : bool :=
  ((9 <=? c) && (c <=? 13)             (* \t \n \v \f \r *)
   || (28 <=? c) && (c <=? 32)         (* FS GS RS US and the space *)
   || (c =? 133) || (c =? 160)         (* NEL, no-break space *)
   || (c =? 5760)
   || (8192 <=? c) && (c <=? 8202)
   || (c =? 8232) || (c =? 8233) || (c =? 8239) || (c =? 8287)
   || (c =? 12288))%N.

Fixpoint lstrip (s : pystr) : pystr :=
  match s with
  | c :: r => if is_space c then lstrip r else s
  | [] => []
  end.

Definition rstrip (s : pystr) : pystr := rev (lstrip (rev s)).

Definition strip (s : pystr) : pystr := rstrip (lstrip s).

(** All of [s] is white space. *)
Definition blank (s : pystr) : Prop := forallb is_space s = true.

(** [s] neither starts nor ends with white space. *)
Definition trimmed (s : pystr) : Prop :=
  match s with
  | [] => True
  | c :: _ => is_space c = false /\ is_space (List.last s c) = false
  end.

End PyStr.
Import PyStr.

(** ** The host: exceptions, processes, file system *)

Module Host.

(** The exception classes the service tells apart.  [OtherException] is any
    other subclass of [Exception] ([OSError], [UnicodeDecodeError], ...),
    [NonException] a [BaseException] outside [Exception]
    ([asyncio.CancelledError], [KeyboardInterrupt]). *)
Inductive exn :=
| TimeoutError
| FileNotFoundError (msg : pystr)
| OtherException (msg : pystr)
| NonException (msg : pystr).

(** [str(e)] *)
Definition str_exn (e : exn) : pystr :=
  match e with
  | TimeoutError => []
  | FileNotFoundError m | OtherException m | NonException m => m
  end.

(** What a started process does once it is fed its input: it exits after
    [t] seconds having written [out] and [err], or it never exits. *)
Inductive behaviour :=
| Exits (t : Q) (out err : bytes) (returncode : Z)
| Hangs.

Record process := { pid : positive; behave : option bytes -> behaviour }.

(** The answers of the operating system and of the Python runtime. *)
Record world := {
  sys_executable : pystr;
  mkdtemp : exn + pystr;
  write_file : pystr -> pystr -> option exn;
  create_subprocess_exec : list pystr -> pystr -> exn + process;
  rmtree : pystr -> option exn;
  format_exc : exn -> pystr;
  decode_error : bytes -> pystr;
  encode_error : pystr -> pystr
}.

(** What the service asked of the host, in order. *)
Inductive action :=
| Mkdtemp
| WriteFile (path content : pystr)
| Exec (cmd : list pystr) (cwd : pystr)
| Communicate (p : positive) (input : option bytes) (timeout : Q)
| Rmtree (dir : pystr).

(** The state of the host: the temporary directories that exist, the child
    processes that were started and have not exited, the time spent waiting
    for children, and the requests made so far (latest first). *)
Record host := {
  dirs : gset pystr;
  children : gset positive;
  waited : Q;
  log : list action
}.

Definition logged (a : action) (h : host) : host :=
  {| dirs := dirs h; children := children h; waited := waited h;
     log := a :: log h |}.

Inductive outcome (A : Type) :=
| Returned (a : A)
| Raised (e : exn).
Arguments Returned {A} a.
Arguments Raised {A} e.

(** Computations on the host that return or raise. *)
Definition M (A : Type) : Type := host -> outcome A * host.

Definition ret {A} (a : A) : M A := fun h => (Returned a, h).

Definition raise {A} (e : exn) : M A := fun h => (Raised e, h).

Definition bind {A B} (m : M A) (k : A -> M B) : M B :=
  fun h =>
    match m h with
    | (Returned a, h') => k a h'
    | (Raised e, h') => (Raised e, h')
    end.

(** [try: m  except ...: ...]: [handler e] is the body of the first clause
    that matches [e], [None] when no clause does. *)
Definition try_except {A} (m : M A) (handler : exn -> option (M A)) : M A :=
  fun h =>
    match m h with
    | (Returned a, h') => (Returned a, h')
    | (Raised e, h') =>
      match handler e with
      | Some k => k h'
      | None => (Raised e, h')
      end
    end.

(** [try: m  finally: fin] *)
Definition try_finally {A} (m : M A) (fin : M unit) : M A :=
  fun h =>
    match m h with
    | (o, h') =>
      match fin h' with
      | (Returned _, h'') => (o, h'')
      | (Raised e, h'') => (Raised e, h'')
      end
    end.

(** [try: m  except: pass] *)
Definition swallow (m : M unit) : M unit :=
  fun h =>
    match m h with
    | (_, h') => (Returned tt, h')
    end.

Declare Scope host_scope.
Delimit Scope host_scope with host.
Notation "x <- m ;; k" := (bind m (fun x => k))
  (at level 100, m at next level, right associativity) : host_scope.
Notation "m ;;; k" := (bind m (fun _ => k))
  (at level 100, right associativity) : host_scope.

(** [tempfile.mkdtemp()] *)
Definition do_mkdtemp (w : world) : M pystr :=
  fun h =>
    match mkdtemp w with
    | inl e => (Raised e, logged Mkdtemp h)
    | inr d =>
      (Returned d,
       {| dirs := {[ d ]} ∪ dirs h; children := children h;
          waited := waited h; log := Mkdtemp :: log h |})
    end.

(** [with open(path, 'w') as f: f.write(content)] *)
Definition do_write (w : world) (path content : pystr) : M unit :=
  fun h =>
    match write_file w path content with
    | Some e => (Raised e, logged (WriteFile path content) h)
    | None => (Returned tt, logged (WriteFile path content) h)
    end.

(** [asyncio.create_subprocess_exec( *cmd, ..., cwd=cwd)] *)
Definition spawn (w : world) (cmd : list pystr) (cwd : pystr) : M process :=
  fun h =>
    match create_subprocess_exec w cmd cwd with
    | inl e => (Raised e, logged (Exec cmd cwd) h)
    | inr p =>
      (Returned p,
       {| dirs := dirs h; children := {[ pid p ]} ∪ children h;
          waited := waited h; log := Exec cmd cwd :: log h |})
    end.

(** [asyncio.wait_for(p.communicate(input), timeout=timeout)]: the outputs
    and the return code when the process exits in time; otherwise the wait
    is given up at the deadline and [TimeoutError] is raised.  Nothing here
    stops the process: it leaves [children] only by exiting. *)
Definition wait_for_communicate (p : process) (input : option bytes)
    (timeout : Q) : M (bytes * bytes * Z) :=
  fun h =>
    match behave p input with
    | Exits t out err rc =>
      if Qle_bool t timeout
      then (Returned (out, err, rc),
            {| dirs := dirs h; children := children h ∖ {[ pid p ]};
               waited := (waited h + t)%Q;
               log := Communicate (pid p) input timeout :: log h |})
      else (Raised TimeoutError,
            {| dirs := dirs h; children := children h;
               waited := (waited h + timeout)%Q;
               log := Communicate (pid p) input timeout :: log h |})
    | Hangs =>
      (Raised TimeoutError,
       {| dirs := dirs h; children := children h;
          waited := (waited h + timeout)%Q;
          log := Communicate (pid p) input timeout :: log h |})
    end.

(** [shutil.rmtree(dir)] *)
Definition do_rmtree (w : world) (dir : pystr) : M unit :=
  fun h =>
    match rmtree w dir with
    | Some e => (Raised e, logged (Rmtree dir) h)
    | None =>
      (Returned tt,
       {| dirs := dirs h ∖ {[ dir ]}; children := children h;
          waited := waited h; log := Rmtree dir :: log h |})
    end.

(** An expression that has a value or raises, and its use in a
    computation. *)
Definition lift {A} (x : exn + A) : M A :=
  match x with
  | inl e => raise e
  | inr a => ret a
  end.

(** [b.decode()] and [s.encode()]; the failures are [UnicodeDecodeError]
    and [UnicodeEncodeError]. *)
Definition py_decode (w : world) (b : bytes) : exn + pystr :=
  match decode b with
  | Some s => inr s
  | None => inl (OtherException (decode_error w b))
  end.

Definition py_encode (w : world) (s : pystr) : exn + bytes :=
  match encode s with
  | Some b => inr b
  | None => inl (OtherException (encode_error w s))
  end.

(** [l[0]] *)
Definition index0 (l : list pystr) : exn + pystr :=
  match l with
  | x :: _ => inr x
  | [] => inl (OtherException (lit "list index out of range"))
  end.

(** The process does not exit within [timeout] seconds. *)
Definition overruns (b : behaviour) (timeout : Q) : Prop :=
  match b with
  | Exits t _ _ _ => Qle_bool t timeout = false
  | Hangs => True
  end.

(** The same host with another answer to one request. *)
Definition with_mkdtemp (w : world) (a : exn + pystr) : world :=
  {| sys_executable := sys_executable w; mkdtemp := a;
     write_file := write_file w;
     create_subprocess_exec := create_subprocess_exec w;
     rmtree := rmtree w; format_exc := format_exc w;
     decode_error := decode_error w; encode_error := encode_error w |}.

Definition with_write_file (w : world) (f : pystr -> pystr -> option exn)
    : world :=
  {| sys_executable := sys_executable w; mkdtemp := mkdtemp w;
     write_file := f;
     create_subprocess_exec := create_subprocess_exec w;
     rmtree := rmtree w; format_exc := format_exc w;
     decode_error := decode_error w; encode_error := encode_error w |}.

Definition with_rmtree (w : world) (f : pystr -> option exn) : world :=
  {| sys_executable := sys_executable w; mkdtemp := mkdtemp w;
     write_file := write_file w;
     create_subprocess_exec := create_subprocess_exec w;
     rmtree := f; format_exc := format_exc w;
     decode_error := decode_error w; encode_error := encode_error w |}.

(** A computation only adds requests that satisfy [P] to the log. *)
Definition appends {A} (P : action -> Prop) (m : M A) : Prop :=
  forall h, exists new, log (snd (m h)) = new ++ log h /\ Forall P new.

(** [os.path.join(dir, name)] for a relative [name] (POSIX separator). *)
Definition path_join (dir name : pystr) : pystr := dir ++ lit "/" ++ name.

End Host.
Import Host.
Local Open Scope host_scope.

(** ** The service *)

Module Service.

(** Judge0 language ids. *)
Inductive LanguageId := PYTHON | C | CPP | JAVA | JAVASCRIPT.

Definition value (l : LanguageId) : Z :=
  match l with
  | PYTHON => 71 | C => 50 | CPP => 54 | JAVA => 62 | JAVASCRIPT => 63
  end.

Definition LANGUAGE_MAP : gmap pystr LanguageId :=
  list_to_map
    [ (lit "python", PYTHON); (lit "c", C); (lit "cpp", CPP);
      (lit "java", JAVA); (lit "javascript", JAVASCRIPT) ].

Record ExecutionResult := {
  stdout : option pystr;
  stderr : option pystr;
  compile_output : option pystr;
  status : pystr;
  status_id : Z;
  time : option pystr;
  memory : option Z;
  exit_code : option Z
}.

(** [ExecutionResult(status=s, status_id=i, stderr=e)]: the other fields at
    their default [None]. *)
Definition failure (s : pystr) (i : Z) (e : pystr) : ExecutionResult :=
  {| stdout := None; stderr := Some e; compile_output := None;
     status := s; status_id := i;
     time := None; memory := None; exit_code := None |}.

(** The [submission] dictionary that [execute_code] prepares. *)
Record Submission := {
  sub_source_code : pystr;
  sub_language_id : Z;
  sub_stdin : pystr;
  sub_expected_output : option pystr;
  cpu_time_limit : Q;
  memory_limit : Z
}.

Record LangConfig := {
  ext : pystr;
  compile : option (list pystr);
  run : list pystr
}.

Definition lang_config (python_exe : pystr) : gmap pystr LangConfig :=
  list_to_map
    [ (lit "python",
       {| ext := lit ".py"; compile := None; run := [python_exe] |});
      (lit "javascript",
       {| ext := lit ".js"; compile := None; run := [lit "node"] |});
      (lit "c",
       {| ext := lit ".c"; compile := Some [lit "gcc"; lit "-o"]; run := [] |});
      (lit "cpp",
       {| ext := lit ".cpp"; compile := Some [lit "g++"; lit "-o"];
          run := [] |});
      (lit "java",
       {| ext := lit ".java"; compile := Some [lit "javac"];
          run := [lit "java"] |}) ].

(** The two deadlines of the source, in seconds. *)
Definition compile_timeout : Q := 30.
Definition run_timeout : Q := 5.

(** Where the submission is written (source lines 152 to 156). *)
Definition source_path (config : LangConfig) (language temp_dir : pystr)
    : pystr :=
  if decide (language = lit "java")
  then path_join temp_dir (lit "Solution.java")
  else path_join temp_dir (lit "code" ++ ext config).

(** The compiler's command line (source lines 163 to 167). *)
Definition compile_command (cc : list pystr)
    (language temp_dir source_file : pystr) : list pystr :=
  if decide (language = lit "java")
  then cc ++ [source_file]
  else cc ++ [path_join temp_dir (lit "program"); source_file].

(** The program's command line (source lines 199 to 204). *)
Definition run_command (config : LangConfig)
    (language temp_dir source_file : pystr) : list pystr :=
  if decide (language = lit "c" \/ language = lit "cpp")
  then [path_join temp_dir (lit "program")]
  else if decide (language = lit "java")
  then [lit "java"; lit "-cp"; temp_dir; lit "Solution"]
  else run config ++ [source_file].

(** [stdin.encode() if stdin else None] *)
Definition stdin_bytes (w : world) (stdin : option pystr)
    : exn + option bytes :=
  match stdin with
  | Some ((_ :: _) as s) =>
    match py_encode w s with inl e => inl e | inr b => inr (Some b) end
  | _ => inr None
  end.

(** [b.decode() if b else None] *)
Definition decode_or_none (w : world) (b : bytes) : exn + option pystr :=
  if truthy b
  then match py_decode w b with inl e => inl e | inr s => inr (Some s) end
  else inr None.

(** [compile_err.decode() if compile_err else "Compilation failed"] *)
Definition compile_message (w : world) (compile_err : bytes) : exn + pystr :=
  if truthy compile_err then py_decode w compile_err
  else inr (lit "Compilation failed").

(** The compile step (source lines 161 to 196).  [Some r] is an early
    [return r]; [None] lets the function go on to the run step. *)
Definition compile_step (w : world) (config : LangConfig)
    (language temp_dir source_file : pystr) : M (option ExecutionResult) :=
  match compile config with
  | Some ((_ :: _) as cc) =>
    let compile_cmd := compile_command cc language temp_dir source_file in
    try_except
      (compile_process <- spawn w compile_cmd temp_dir ;;
       r <- wait_for_communicate compile_process None compile_timeout ;;
       let '(compile_out, compile_err, returncode) := r in
       if (returncode =? 0)%Z then ret None
       else
         co <- lift (compile_message w compile_err) ;;
         ret (Some {| stdout := None; stderr := None;
                      compile_output := Some co;
                      status := lit "Compilation Error"; status_id := 6;
                      time := None; memory := None;
                      exit_code := Some returncode |}))
      (fun e =>
         match e with
         | FileNotFoundError _ =>
           Some (compiler <- lift (index0 cc) ;;
                 ret (Some (failure (lit "Compiler Not Found") (-1)
                              (compiler ++ lit " not found. Please install "
                               ++ compiler ++ lit " to run " ++ language
                               ++ lit " code locally."))))
         | _ => None
         end)
  | _ => ret None
  end.

(** The run step (source lines 198 to 233). *)
Definition run_step (w : world) (config : LangConfig)
    (language temp_dir source_file : pystr) (stdin : option pystr)
    : M ExecutionResult :=
  let run_cmd := run_command config language temp_dir source_file in
  try_except
    (process <- spawn w run_cmd temp_dir ;;
     input <- lift (stdin_bytes w stdin) ;;
     r <- wait_for_communicate process input run_timeout ;;
     let '(out, err, returncode) := r in
     so <- lift (decode_or_none w out) ;;
     se <- lift (decode_or_none w err) ;;
     ret {| stdout := so; stderr := se; compile_output := None;
            status := if (returncode =? 0)%Z then lit "Accepted"
                      else lit "Runtime Error";
            status_id := if (returncode =? 0)%Z then 3 else 11;
            time := None; memory := None;
            exit_code := Some returncode |})
    (fun e =>
       match e with
       | FileNotFoundError _ =>
         Some (runtime <- lift (index0 run_cmd) ;;
               ret (failure (lit "Runtime Not Found") (-1)
                      (runtime ++ lit " not found. Please install it to run "
                       ++ language ++ lit " code locally.")))
       | _ => None
       end).

(** The clauses of the outer [try] (source lines 235 to 253), in order. *)
Definition outer_handler (w : world) (e : exn) : option (M ExecutionResult) :=
  match e with
  | TimeoutError =>
    Some (ret (failure (lit "Time Limit Exceeded") 5
                 (lit "Execution timed out (5 second limit)")))
  | FileNotFoundError _ =>
    Some (ret (failure (lit "Runtime Not Found") (-1)
                 (lit "Could not find runtime: " ++ str_exn e)))
  | OtherException _ =>
    Some (ret (failure (lit "Error") (-1)
                 (lit "Execution error: " ++ str_exn e ++ [10%N]
                  ++ format_exc w e)))
  | NonException _ => None
  end.

(** The body of the outer [try] (source lines 151 to 233). *)
Definition attempt (w : world) (config : LangConfig)
    (source_code language : pystr) (stdin : option pystr) (temp_dir : pystr)
    : M ExecutionResult :=
  let source_file := source_path config language temp_dir in
  do_write w source_file source_code ;;;
  early <- compile_step w config language temp_dir source_file ;;
  match early with
  | Some r => ret r
  | None => run_step w config language temp_dir source_file stdin
  end.

Definition _fallback_execute (w : world) (source_code language : pystr)
    (stdin : option pystr) : M ExecutionResult :=
  let python_exe := sys_executable w in
  match lang_config python_exe !! language with
  | None =>
    ret (failure (lit "Unsupported") (-1)
           (lit "Unsupported language: " ++ language))
  | Some config =>
    temp_dir <- do_mkdtemp w ;;
    try_finally
      (try_except
         (attempt w config source_code language stdin temp_dir)
         (outer_handler w))
      (swallow (do_rmtree w temp_dir))
  end.

Definition execute_code (w : world) (source_code language : pystr)
    (stdin expected_output : option pystr) (time_limit : Q)
    (memory_limit : Z) : M ExecutionResult :=
  match LANGUAGE_MAP !! language with
  | None =>
    ret (failure (lit "Error") (-1) (lit "Unsupported language: " ++ language))
  | Some l =>
    let language_id := value l in
    let submission :=
      {| sub_source_code := source_code; sub_language_id := language_id;
         sub_stdin := or_empty stdin;
         sub_expected_output := expected_output;
         cpu_time_limit := time_limit; memory_limit := memory_limit |} in
    _fallback_execute w source_code language stdin
  end.

(** The defaults of [execute_code]'s keyword arguments. *)
Definition default_time_limit : Q := 5.
Definition default_memory_limit : Z := 128000.

(** *** [check_solution] *)

(** A test case is a dictionary; [None] is a missing key. *)
Record TestCase := {
  tc_input : option pystr;
  tc_expected_output : option pystr
}.

(** [d.get(key, '')] *)
Definition get_or_empty (v : option pystr) : pystr :=
  match v with Some s => s | None => [] end.

(** One entry of the ['results'] list. *)
Record CaseReport := {
  r_test_case : nat;
  r_passed : bool;
  r_input : pystr;
  r_expected : pystr;
  r_actual : pystr;
  r_status : pystr;
  r_time : option pystr;
  r_error : option pystr
}.

Record Report := {
  passed : nat;
  total : nat;
  all_passed : bool;
  results : list CaseReport
}.

(** The body of the loop after the call of [execute_code]
    (source lines 293 to 310). *)
Definition judge (i : nat) (test_case : TestCase) (result : ExecutionResult)
    : CaseReport :=
  let actual_output := strip (or_empty (stdout result)) in
  let expected_output := strip (get_or_empty (tc_expected_output test_case)) in
  let is_correct := bool_decide (actual_output = expected_output) in
  {| r_test_case := i + 1;
     r_passed := is_correct;
     r_input := get_or_empty (tc_input test_case);
     r_expected := expected_output;
     r_actual := actual_output;
     r_status := status result;
     r_time := time result;
     r_error := py_or (stderr result) (compile_output result) |}.

(** The loop: [i] is the index of the first case of [test_cases], [acc] the
    [results] list so far (latest first) and [n] the [passed] counter. *)
Fixpoint check_loop (w : world) (source_code language : pystr)
    (time_limit : Q) (i : nat) (test_cases : list TestCase)
    (acc : list CaseReport) (n : nat) : M (list CaseReport * nat) :=
  match test_cases with
  | [] => ret (rev acc, n)
  | test_case :: rest =>
    result <- execute_code w source_code language
                (Some (get_or_empty (tc_input test_case)))
                (tc_expected_output test_case) time_limit
                default_memory_limit ;;
    let c := judge i test_case result in
    check_loop w source_code language time_limit (S i) rest (c :: acc)
      (if r_passed c then S n else n)
  end.

Definition check_solution (w : world) (source_code language : pystr)
    (test_cases : list TestCase) (time_limit : Q) : M Report :=
  r <- check_loop w source_code language time_limit 0 test_cases [] 0 ;;
  let '(results, n) := r in
  ret {| passed := n; total := length test_cases;
         all_passed := (n =? length test_cases)%nat;
         results := results |}.

End Service.
Import Service.

(** ** Vocabulary of the statements *)

Module Terms.

(** What the caller gets when the body of the outer [try] raises [e]:
    the result of the first clause that matches, or [e] itself when none
    does. *)
Definition caught (w : world) (e : exn) : outcome ExecutionResult :=
  match e with
  | TimeoutError =>
    Returned (failure (lit "Time Limit Exceeded") 5
                (lit "Execution timed out (5 second limit)"))
  | FileNotFoundError m =>
    Returned (failure (lit "Runtime Not Found") (-1)
                (lit "Could not find runtime: " ++ m))
  | OtherException m =>
    Returned (failure (lit "Error") (-1)
                (lit "Execution error: " ++ m ++ [10%N] ++ format_exc w e))
  | NonException _ => Raised e
  end.

(** The host once [shutil.rmtree(d)] has been tried. *)
Definition cleaned (w : world) (d : pystr) (h : host) : host :=
  snd (do_rmtree w d h).

(** A wait for a child process uses one of the two deadlines of the
    source. *)
Definition fixed_deadline (a : action) : Prop :=
  match a with
  | Communicate _ _ t => t = compile_timeout \/ t = run_timeout
  | _ => True
  end.

(** The languages the docstring of [execute_code] lists. *)
Definition supported_languages : list pystr :=
  [ lit "python"; lit "c"; lit "cpp"; lit "java"; lit "javascript" ].

(** The request gets as far as the run step (source line 198): the language
    is known, the directory [temp_dir] is created, the source is written and
    the compile step, when the language has one, lets the run go ahead.
    [h2] is the host at that point. *)
Definition reaches_run (w : world) (source_code language : pystr) (h : host)
    (config : LangConfig) (temp_dir : pystr) (h2 : host) : Prop :=
  lang_config (sys_executable w) !! language = Some config /\
  exists h0 h1,
    do_mkdtemp w h = (Returned temp_dir, h0) /\
    do_write w (source_path config language temp_dir) source_code h0
      = (Returned tt, h1) /\
    compile_step w config language temp_dir
      (source_path config language temp_dir) h1 = (Returned None, h2).

End Terms.
Import Terms.

(** ** Hosts and submissions used in the examples *)

Module Scenario.

Definition tmp : pystr := lit "/tmp/tmpk3x9a2bq".

Definition idle : host :=
  {| dirs := ∅; children := ∅; waited := 0; log := [] |}.

(** A process with number [n] that behaves as [b] whatever its input. *)
Definition proc (n : positive) (b : behaviour) : exn + process :=
  inr {| pid := n; behave := fun _ => b |}.

(** A host on which every request succeeds, processes being started by
    [exec]. *)
Definition base (exec : list pystr -> pystr -> exn + process) : world :=
  {| sys_executable := lit "/usr/bin/python3";
     mkdtemp := inr tmp;
     write_file := fun _ _ => None;
     create_subprocess_exec := exec;
     rmtree := fun _ => None;
     format_exc := fun _ => lit "Traceback (most recent call last): ...";
     decode_error := fun _ => lit "'utf-8' codec can't decode byte";
     encode_error := fun _ => lit "'utf-8' codec can't encode character" |}.

(** The bytes of an ASCII literal. *)
Definition ascii_bytes (s : string) : bytes :=
  map byte_of_ascii (list_ascii_of_string s).

(** The program [p] printed [out], wrote [err] and exited with [rc] after
    [t] seconds. *)
Definition program (t : Q) (out err : bytes) (rc : Z) : world :=
  base (fun _ _ => proc 7 (Exits t out err rc)).

(** [print("hello")] *)
Definition hello : world := program (1 # 10) (ascii_bytes "hello
") [] 0.

(** A program that never exits, such as [while True: pass]. *)
Definition spinning : world := base (fun _ _ => proc 7 Hangs).

(** A compiler ([g++], process 5) that behaves as [c], and the compiled
    program (process 7) that behaves as [b]. *)
Definition compiled (c b : behaviour) : world :=
  base (fun cmd _ =>
          match cmd with
          | x :: _ => if decide (x = lit "g++") then proc 5 c else proc 7 b
          | [] => inl (OtherException (lit "empty command"))
          end).

(** The entries of [lang_config] on these hosts. *)
Definition python_config : LangConfig :=
  {| ext := lit ".py"; compile := None; run := [lit "/usr/bin/python3"] |}.

Definition cpp_config : LangConfig :=
  {| ext := lit ".cpp"; compile := Some [lit "g++"; lit "-o"]; run := [] |}.

(** The host when a Python submission is about to be run. *)
Definition python_ready (exec : list pystr -> pystr -> exn + process)
    (source_code : pystr) (h : host) : host :=
  logged (WriteFile (source_path python_config (lit "python") tmp) source_code)
    (snd (do_mkdtemp (base exec) h)).

(** The result of a run that printed [out] and exited with code 0. *)
Definition accepted (out : pystr) : ExecutionResult :=
  {| stdout := Some out; stderr := None; compile_output := None;
     status := lit "Accepted"; status_id := 3;
     time := None; memory := None; exit_code := Some 0%Z |}.

(** A test case that expects [expected], with no input. *)
Definition expecting (expected : pystr) : TestCase :=
  {| tc_input := Some []; tc_expected_output := Some expected |}.

(** The disk is full: the source cannot be written. *)
Definition disk_full : world :=
  with_write_file hello
    (fun _ _ => Some (OtherException (lit "[Errno 28] No space left on device"))).

(** The directory has vanished when the source is to be written. *)
Definition directory_vanished : world :=
  with_write_file hello
    (fun _ _ =>
       Some (FileNotFoundError (lit "[Errno 2] No such file or directory"))).

(** The task is cancelled while the interpreter is being started. *)
Definition cancelled : world :=
  base (fun _ _ => inl (NonException (lit "CancelledError"))).

(** No temporary directory can be created. *)
Definition no_tmp : world :=
  with_mkdtemp hello
    (inl (FileNotFoundError (lit "[Errno 2] No usable temporary directory found"))).

(** The directory cannot be deleted. *)
Definition undeletable : world :=
  with_rmtree hello
    (fun _ => Some (OtherException (lit "[Errno 16] Device or resource busy"))).

(** [g++] rejects the source. *)
Definition rejected (err : bytes) : world :=
  compiled (Exits (1 # 2) [] err 1) Hangs.

End Scenario.

(** ** The callers in [api/questions.py] *)

Module Api.

(** [HTTPException(status_code=..., detail=...)] *)
Record HTTPException := { status_code : Z; detail : pystr }.

(** The dictionary that [run_code] returns. *)
Record RunResponse := {
  run_stdout : option pystr;
  run_stderr : option pystr;
  run_compile_output : option pystr;
  run_status : pystr;
  run_time : option pystr;
  run_memory : option Z
}.

(** [run_code] (source lines 236 to 264), after the authentication of the
    caller.  The one exception the function raises itself is raised before
    anything is asked of the host; it is the left value. *)
Definition run_code (w : world) (source_code language : pystr)
    (stdin : option pystr) : M (HTTPException + RunResponse) :=
  if decide (language ∈ [ lit "python"; lit "c"; lit "cpp"; lit "java";
                          lit "javascript" ])
  then
    result <- execute_code w source_code language stdin None
                default_time_limit default_memory_limit ;;
    ret (inr {| run_stdout := stdout result; run_stderr := stderr result;
                run_compile_output := compile_output result;
                run_status := status result; run_time := time result;
                run_memory := memory result |})
  else
    ret (inl {| status_code := 400;
                detail := lit "Unsupported language: " ++ language |}).

(** [s.startswith(p)] *)
Fixpoint startswith (s p : pystr) : bool :=
  match p, s with
  | [], _ => true
  | c :: p', c' :: s' => (c =? c')%N && startswith s' p'
  | _ :: _, [] => false
  end.

(** [expected.startswith(('def ', 'function ', 'int ', 'class ',
    '#include'))] *)
Definition looks_like_code (expected : pystr) : bool :=
  existsb (startswith expected)
    [ lit "def "; lit "function "; lit "int "; lit "class "; lit "#include" ].

(** How [submit_code] decides [is_correct] from the result of the run and
    the [correct_answer] of the question (source lines 299 to 308). *)
Definition grade (result : ExecutionResult) (correct_answer : pystr) : bool :=
  let is_correct := (status_id result =? 3)%Z in
  if is_correct && truthy correct_answer
  then
    let expected := strip correct_answer in
    let actual := strip (or_empty (stdout result)) in
    if negb (looks_like_code expected)
    then bool_decide (actual = expected)
    else is_correct
  else is_correct.

(** The row that [submit_code] inserts in [user_attempts] (source lines 331
    to 338), without the identifiers of the user and of the question. *)
Record AttemptRow := {
  user_answer : pystr;
  is_correct : bool;
  time_taken_seconds : Z;
  xp_earned : Z
}.

(** The part of [submit_code] from the run of the submission to the row of
    the attempt (source lines 294 to 338): the run, the decision, the
    experience points earned.  The question has already been fetched; the
    mastery update and the writes to the database are not part of it. *)
Definition submit_attempt (w : world) (source_code language : pystr)
    (correct_answer : pystr) (xp_reward : Z)
    : M (ExecutionResult * AttemptRow) :=
  result <- execute_code w source_code language None None
              default_time_limit default_memory_limit ;;
  let is_correct := grade result correct_answer in
  let xp_earned := if is_correct then xp_reward else 0%Z in
  ret (result,
       {| user_answer :=
            lit "[" ++ language ++ lit "]" ++ [10%N] ++ take 500 source_code;
          is_correct := is_correct;
          time_taken_seconds := 0;
          xp_earned := xp_earned |}).

End Api.
Import Api.

(** ** Vocabulary of the invariants *)

Module Rules.

(** Whatever [m] returns satisfies [P]. *)
Definition yields {A} (P : A -> Prop) (m : M A) : Prop :=
  forall h a h', m h = (Returned a, h') -> P a.

(** [m] takes a host to one that is related to it by [R n]; [n] is a
    budget. *)
Definition spends {A} (R : nat -> host -> host -> Prop) (n : nat) (m : M A)
    : Prop :=
  forall h, R n h (snd (m h)).

(** At most [n] more seconds have been spent waiting for children. *)
Definition within_seconds (n : nat) (h h' : host) : Prop :=
  (waited h' <= waited h + inject_Z (Z.of_nat n))%Q.

(** The number of processes a list of requests starts. *)
Fixpoint execs (l : list action) : nat :=
  match l with
  | [] => 0
  | Exec _ _ :: l' => S (execs l')
  | _ :: l' => execs l'
  end.

(** At most [n] more processes have been started. *)
Definition within_processes (n : nat) (h h' : host) : Prop :=
  exists new, log h' = new ++ log h /\ (execs new <= n)%nat.

(** The directories other than the one [tempfile.mkdtemp] answers with are
    the same. *)
Definition same_other_dirs (w : world) (n : nat) (h h' : host) : Prop :=
  forall x, mkdtemp w <> inr x -> (x ∈ dirs h' <-> x ∈ dirs h).

(** The three shapes of the results that [_fallback_execute] builds: from a
    run that was waited for, from a compiler that rejected the source, and
    from a failure reported in [stderr]. *)
Inductive shaped : ExecutionResult -> Prop :=
| shaped_run (so se : option pystr) (rc : Z) :
    so <> Some [] -> se <> Some [] ->
    shaped {| stdout := so; stderr := se; compile_output := None;
              status := if (rc =? 0)%Z then lit "Accepted"
                        else lit "Runtime Error";
              status_id := if (rc =? 0)%Z then 3 else 11;
              time := None; memory := None; exit_code := Some rc |}
| shaped_compile (co : pystr) (rc : Z) :
    co <> [] -> rc <> 0%Z ->
    shaped {| stdout := None; stderr := None; compile_output := Some co;
              status := lit "Compilation Error"; status_id := 6;
              time := None; memory := None; exit_code := Some rc |}
| shaped_failure (s : pystr) (i : Z) (e : pystr) :
    (s, i) ∈ [ (lit "Time Limit Exceeded", 5%Z);
               (lit "Compiler Not Found", (-1)%Z);
               (lit "Runtime Not Found", (-1)%Z);
               (lit "Error", (-1)%Z) ] ->
    e <> [] ->
    shaped (failure s i e).

End Rules.
Import Rules.

(** ** More hosts and test cases for the examples *)

Module Cases.
Import Scenario.

(** No compiler and no interpreter is installed. *)
Definition nothing_installed : world :=
  base (fun _ _ =>
          inl (FileNotFoundError (lit "[Errno 2] No such file or directory"))).

(** The program writes back what it reads. *)
Definition echoing : world :=
  base (fun _ _ =>
          inr {| pid := 7;
                 behave := fun input =>
                   match input with
                   | Some b => Exits (1 # 10) b [] 0
                   | None => Exits (1 # 10) [] [] 0
                   end |}).

(** Two test cases for [print('hello')], and their report. *)
Definition hello_cases : list TestCase :=
  [ expecting (lit "hello"); expecting (lit "bye") ].

Definition hello_entry (k : nat) (expected : pystr) (ok : bool)
    : CaseReport :=
  {| r_test_case := k; r_passed := ok; r_input := []; r_expected := expected;
     r_actual := lit "hello"; r_status := lit "Accepted"; r_time := None;
     r_error := None |}.

Definition hello_report : Report :=
  {| passed := 1; total := 2; all_passed := false;
     results := [ hello_entry 1 (lit "hello") true;
                  hello_entry 2 (lit "bye") false ] |}.

(** The result for a source that [g++] rejects. *)
Definition rejected_result (message : pystr) : ExecutionResult :=
  {| stdout := None; stderr := None; compile_output := Some message;
     status := lit "Compilation Error"; status_id := 6;
     time := None; memory := None; exit_code := Some 1%Z |}.

End Cases.
Import Cases.

(** * Properties *)

Import Scenario.

(** ** Text: stripping and decoding *)

Lemma lstrip_blank (l s : pystr) : blank l -> lstrip (l ++ s) = lstrip s.
Proof.
  unfold blank. induction l as [|c l IH]; simpl; [reflexivity|].
  intros H. apply andb_true_iff in H as [Hc Hl]. rewrite Hc. auto.
Qed.

Lemma lstrip_all_blank (s : pystr) : blank s -> lstrip s = [].
Proof.
  intros H. rewrite <- (app_nil_r s). rewrite lstrip_blank by assumption.
  reflexivity.
Qed.

Lemma lstrip_nil_blank (s : pystr) : lstrip s = [] -> blank s.
Proof.
  unfold blank. induction s as [|c s IH]; simpl; [reflexivity|].
  destruct (is_space c); [auto | discriminate].
Qed.

Lemma lstrip_app_keep (s r : pystr) :
  lstrip s <> [] -> lstrip (s ++ r) = lstrip s ++ r.
Proof.
  induction s as [|c s IH]; simpl; [congruence|].
  destruct (is_space c); auto.
Qed.

Lemma blank_app (a b : pystr) : blank a -> blank b -> blank (a ++ b).
Proof.
  unfold blank. intros Ha Hb. rewrite forallb_app, Ha, Hb. reflexivity.
Qed.

Lemma blank_rev (a : pystr) : blank a -> blank (rev a).
Proof.
  unfold blank. intros Ha. apply forallb_forall. intros x Hx.
  apply in_rev in Hx. rewrite forallb_forall in Ha. auto.
Qed.

Lemma rstrip_blank (s r : pystr) : blank r -> rstrip (s ++ r) = rstrip s.
Proof.
  intros Hr. unfold rstrip. rewrite rev_app_distr.
  rewrite lstrip_blank by (apply blank_rev; assumption). reflexivity.
Qed.

(** White space around a text does not change what [strip] returns. *)
Lemma strip_padding (l s r : pystr) :
  blank l -> blank r -> strip (l ++ s ++ r) = strip s.
Proof.
  intros Hl Hr. unfold strip. rewrite lstrip_blank by assumption.
  destruct (lstrip s) as [|c t] eqn:E.
  - apply lstrip_nil_blank in E.
    rewrite lstrip_all_blank by (apply blank_app; assumption). reflexivity.
  - rewrite lstrip_app_keep by (rewrite E; discriminate).
    rewrite E. apply rstrip_blank. assumption.
Qed.

(** A text without white space at either end is left as it is. *)
Lemma strip_trimmed (s : pystr) : trimmed s -> strip s = s.
Proof.
  destruct s as [|c s]; [reflexivity|].
  intros [Hc Hlast]. unfold strip.
  assert (Hl : lstrip (c :: s) = c :: s) by (simpl; rewrite Hc; reflexivity).
  rewrite Hl. unfold rstrip.
  destruct (exists_last (l := c :: s)) as (t & y & Ety); [discriminate|].
  rewrite Ety in *. rewrite last_last in Hlast.
  rewrite rev_app_distr. simpl. rewrite Hlast. simpl.
  rewrite rev_involutive. reflexivity.
Qed.

Lemma lstrip_head (s : pystr) c t : lstrip s = c :: t -> is_space c = false.
Proof.
  induction s as [|x s IH]; simpl; [discriminate|].
  destruct (is_space x) eqn:E; [auto|]. intros [= <- <-]. assumption.
Qed.

Lemma lstrip_suffix (s : pystr) : exists l, blank l /\ s = l ++ lstrip s.
Proof.
  induction s as [|x s (l & Hl & E)]; simpl.
  - exists []. split; reflexivity.
  - destruct (is_space x) eqn:Ex.
    + exists (x :: l). split; [unfold blank; simpl; rewrite Ex; exact Hl|].
      simpl. congruence.
    + exists []. split; reflexivity.
Qed.

(** Every text is what [strip] returns for it between two runs of white
    space, and what [strip] returns has no white space at either end. *)
Lemma strip_decompose (s : pystr) :
  exists l r, blank l /\ blank r /\ s = l ++ strip s ++ r /\ trimmed (strip s).
Proof.
  destruct (lstrip_suffix s) as (l & Hl & El).
  destruct (lstrip_suffix (rev (lstrip s))) as (r & Hr & Er).
  exists l, (rev r). split; [assumption|]. split; [apply blank_rev; assumption|].
  assert (Em : lstrip s = strip s ++ rev r).
  { unfold strip, rstrip. rewrite <- rev_app_distr, <- Er.
    symmetry. apply rev_involutive. }
  split; [congruence|].
  unfold trimmed. destruct (strip s) as [|c t] eqn:Es; [exact I|].
  split.
  - destruct (lstrip s) as [|c' t'] eqn:E'; simpl in Em; [discriminate|].
    injection Em as -> _. eapply lstrip_head. exact E'.
  - unfold strip, rstrip in Es.
    destruct (lstrip (rev (lstrip s))) as [|y u] eqn:Ey; [discriminate|].
    simpl in Es. rewrite <- Es. rewrite last_last.
    eapply lstrip_head. exact Ey.
Qed.

(** Bytes that decode give at least one code point unless there are none. *)
Lemma decode_nonempty (b : byte) (bs : bytes) (s : pystr) :
  decode (b :: bs) = Some s -> s <> [].
Proof.
  cbn [decode]. intros H.
  repeat match type of H with
         | context [if ?c then _ else _] => destruct c
         | context [match ?l with [] => _ | _ :: _ => _ end] => destruct l
         end; try discriminate;
  match type of H with
  | option_map _ ?o = _ => destruct o; simpl in H; [|discriminate]
  end; congruence.
Qed.

Lemma decode_or_none_exn w b e :
  decode_or_none w b = inl e -> exists m, e = OtherException m.
Proof.
  unfold decode_or_none, py_decode. destruct (truthy b); [|discriminate].
  destruct (decode b); [discriminate|]. intros [= <-]. eauto.
Qed.

Lemma decode_or_none_nonempty w b so :
  decode_or_none w b = inr so -> so <> Some [].
Proof.
  unfold decode_or_none, py_decode.
  destruct b as [|x b]; [intros [= <-]; discriminate|].
  change (truthy (x :: b)) with true. cbv iota.
  destruct (decode (x :: b)) as [s|] eqn:E; [|discriminate].
  intros [= <-] [= ->]. exact (decode_nonempty _ _ _ E eq_refl).
Qed.

Lemma decode_or_none_silent w : decode_or_none w [] = inr None.
Proof. reflexivity. Qed.

Lemma compile_message_exn w b e :
  compile_message w b = inl e -> exists m, e = OtherException m.
Proof.
  unfold compile_message, py_decode. destruct (truthy b); [|discriminate].
  destruct (decode b); [discriminate|]. intros [= <-]. eauto.
Qed.

(** ** Languages *)

Lemma LANGUAGE_MAP_keys (language : pystr) :
  LANGUAGE_MAP !! language = None <-> language ∉ supported_languages.
Proof.
  unfold LANGUAGE_MAP. rewrite <- not_elem_of_list_to_map.
  unfold supported_languages. simpl. reflexivity.
Qed.

Lemma lang_config_keys (exe language : pystr) :
  lang_config exe !! language = None <-> language ∉ supported_languages.
Proof.
  unfold lang_config. rewrite <- not_elem_of_list_to_map.
  unfold supported_languages. simpl.
  split; intros H Hin; apply H; revert Hin;
    rewrite !elem_of_cons, !elem_of_nil; tauto.
Qed.

(** The two tables know the same languages, so the test at the head of
    [_fallback_execute] never fires when it is called from
    [execute_code]. *)
Lemma tables_agree (exe language : pystr) :
  LANGUAGE_MAP !! language = None <-> lang_config exe !! language = None.
Proof. rewrite LANGUAGE_MAP_keys, lang_config_keys. reflexivity. Qed.

Lemma execute_code_known w source_code language stdin expected_output
    time_limit memory_limit config :
  lang_config (sys_executable w) !! language = Some config ->
  execute_code w source_code language stdin expected_output time_limit
    memory_limit = _fallback_execute w source_code language stdin.
Proof.
  intros Hc. unfold execute_code.
  destruct (LANGUAGE_MAP !! language) eqn:E; [reflexivity|].
  apply (tables_agree (sys_executable w)) in E. congruence.
Qed.

(** C2.  For a language outside the supported ones nothing is asked of the
    host, so no directory is created.  [execute_code] answers with status
    ["Error"]; the status ["Unsupported"] is the answer of the same test in
    [_fallback_execute], which [execute_code] never reaches with such a
    language. *)
Theorem unsupported_language_result w source_code language stdin
    expected_output time_limit memory_limit h :
  language ∉ supported_languages ->
  execute_code w source_code language stdin expected_output time_limit
    memory_limit h =
    (Returned (failure (lit "Error") (-1)
                 (lit "Unsupported language: " ++ language)), h)
  /\ _fallback_execute w source_code language stdin h =
    (Returned (failure (lit "Unsupported") (-1)
                 (lit "Unsupported language: " ++ language)), h).
Proof.
  intros Hn. split.
  - unfold execute_code. apply LANGUAGE_MAP_keys in Hn. rewrite Hn.
    reflexivity.
  - unfold _fallback_execute.
    apply (lang_config_keys (sys_executable w)) in Hn. rewrite Hn.
    reflexivity.
Qed.

(** A request for Ruby. *)
Lemma unsupported_language_result_ruby :
  execute_code hello (lit "puts 1") (lit "ruby") None None default_time_limit
    default_memory_limit idle =
    (Returned (failure (lit "Error") (-1)
                 (lit "Unsupported language: " ++ lit "ruby")), idle)
  /\ _fallback_execute hello (lit "puts 1") (lit "ruby") None idle =
    (Returned (failure (lit "Unsupported") (-1)
                 (lit "Unsupported language: " ++ lit "ruby")), idle).
Proof.
  apply (unsupported_language_result hello (lit "puts 1") (lit "ruby") None
           None default_time_limit default_memory_limit idle).
  apply (bool_decide_unpack _). vm_compute. exact I.
Defined.

(** ** What a request asks of the host *)

Create HintDb requests.

Section Requests.

Variable P : action -> Prop.

Lemma appends_ret {A} (a : A) : appends P (ret a).
Proof. intros h. exists []. split; [reflexivity|constructor]. Qed.

Lemma appends_raise {A} (e : exn) : appends P (@raise A e).
Proof. intros h. exists []. split; [reflexivity|constructor]. Qed.

Lemma appends_lift {A} (x : exn + A) : appends P (lift x).
Proof. destruct x; [apply appends_raise|apply appends_ret]. Qed.

Lemma appends_bind {A B} (m : M A) (k : A -> M B) :
  appends P m -> (forall a, appends P (k a)) -> appends P (bind m k).
Proof.
  intros Hm Hk h. unfold bind. destruct (Hm h) as (n1 & E1 & F1).
  destruct (m h) as [[a|e] h1]; simpl in E1.
  - destruct (Hk a h1) as (n2 & E2 & F2). exists (n2 ++ n1).
    rewrite E2, E1, app_assoc. split; [reflexivity|].
    apply Forall_app. split; assumption.
  - exists n1. split; assumption.
Qed.

Lemma appends_try_except {A} (m : M A) (handler : exn -> option (M A)) :
  appends P m ->
  (forall e k, handler e = Some k -> appends P k) ->
  appends P (try_except m handler).
Proof.
  intros Hm Hk h. unfold try_except. destruct (Hm h) as (n1 & E1 & F1).
  destruct (m h) as [[a|e] h1]; simpl in E1.
  - exists n1. split; assumption.
  - destruct (handler e) as [k|] eqn:Eh.
    + destruct (Hk e k Eh h1) as (n2 & E2 & F2). exists (n2 ++ n1).
      rewrite E2, E1, app_assoc. split; [reflexivity|].
      apply Forall_app. split; assumption.
    + exists n1. split; assumption.
Qed.

Lemma appends_try_finally {A} (m : M A) (fin : M unit) :
  appends P m -> appends P fin -> appends P (try_finally m fin).
Proof.
  intros Hm Hf h. unfold try_finally. destruct (Hm h) as (n1 & E1 & F1).
  destruct (m h) as [o h1]; simpl in E1.
  destruct (Hf h1) as (n2 & E2 & F2).
  exists (n2 ++ n1). split.
  - destruct (fin h1) as [[[]|e] h2]; simpl in *;
      rewrite E2, E1, app_assoc; reflexivity.
  - apply Forall_app. split; assumption.
Qed.

Lemma appends_swallow (m : M unit) : appends P m -> appends P (swallow m).
Proof.
  intros Hm h. unfold swallow. destruct (Hm h) as (n1 & E1 & F1).
  destruct (m h) as [o h1]. exists n1. split; assumption.
Qed.

Lemma appends_one {A} (m : M A) (a : action) :
  P a -> (forall h, log (snd (m h)) = a :: log h) -> appends P m.
Proof.
  intros Ha Hm h. exists [a]. split; [apply Hm|]. repeat constructor.
  exact Ha.
Qed.

Lemma appends_mkdtemp w : P Mkdtemp -> appends P (do_mkdtemp w).
Proof.
  intros Ha. apply (appends_one _ _ Ha). intros h. unfold do_mkdtemp.
  destruct (mkdtemp w); reflexivity.
Qed.

Lemma appends_write w path content :
  P (WriteFile path content) -> appends P (do_write w path content).
Proof.
  intros Ha. apply (appends_one _ _ Ha). intros h. unfold do_write.
  destruct (write_file w path content); reflexivity.
Qed.

Lemma appends_spawn w cmd cwd : P (Exec cmd cwd) -> appends P (spawn w cmd cwd).
Proof.
  intros Ha. apply (appends_one _ _ Ha). intros h. unfold spawn.
  destruct (create_subprocess_exec w cmd cwd); reflexivity.
Qed.

Lemma appends_wait p input timeout :
  P (Communicate (pid p) input timeout) ->
  appends P (wait_for_communicate p input timeout).
Proof.
  intros Ha. apply (appends_one _ _ Ha). intros h.
  unfold wait_for_communicate.
  destruct (behave p input) as [t out err rc|]; [|reflexivity].
  destruct (Qle_bool t timeout); reflexivity.
Qed.

Lemma appends_rmtree w dir : P (Rmtree dir) -> appends P (do_rmtree w dir).
Proof.
  intros Ha. apply (appends_one _ _ Ha). intros h. unfold do_rmtree.
  destruct (rmtree w dir); reflexivity.
Qed.

End Requests.

#[local] Hint Resolve appends_ret appends_raise appends_lift appends_swallow
  appends_try_finally appends_mkdtemp appends_write appends_spawn
  appends_wait appends_rmtree : requests.

(** Every wait of a request uses [compile_timeout] or [run_timeout]. *)
Lemma compile_step_deadline w config language d source_file :
  appends fixed_deadline (compile_step w config language d source_file).
Proof.
  unfold compile_step. destruct (compile config) as [[|c cc]|];
    auto with requests.
  apply appends_try_except.
  - apply appends_bind; [apply appends_spawn; exact I|]. intros p.
    apply appends_bind; [apply appends_wait; left; reflexivity|].
    intros [[out err] rc]. destruct (rc =? 0)%Z; auto with requests.
    apply appends_bind; auto with requests.
  - intros [] k; try discriminate. intros [= <-].
    apply appends_bind; auto with requests.
Qed.

Lemma run_step_deadline w config language d source_file stdin :
  appends fixed_deadline (run_step w config language d source_file stdin).
Proof.
  unfold run_step. apply appends_try_except.
  - apply appends_bind; [apply appends_spawn; exact I|]. intros p.
    apply appends_bind; [apply appends_lift|]. intros input.
    apply appends_bind; [apply appends_wait; right; reflexivity|].
    intros [[out err] rc].
    apply appends_bind; [apply appends_lift|]. intros so.
    apply appends_bind; [apply appends_lift|]. intros se.
    apply appends_ret.
  - intros [] k; try discriminate. intros [= <-].
    apply appends_bind; auto with requests.
Qed.

Lemma execute_code_deadline w source_code language stdin expected_output
    time_limit memory_limit :
  appends fixed_deadline
    (execute_code w source_code language stdin expected_output time_limit
       memory_limit).
Proof.
  unfold execute_code. destruct (LANGUAGE_MAP !! language);
    [|apply appends_ret].
  unfold _fallback_execute.
  destruct (lang_config (sys_executable w) !! language) as [config|];
    [|apply appends_ret].
  apply appends_bind; [apply appends_mkdtemp; exact I|]. intros d.
  apply appends_try_finally;
    [|apply appends_swallow, appends_rmtree; exact I].
  apply appends_try_except.
  - unfold attempt. apply appends_bind; [apply appends_write; exact I|].
    intros _. apply appends_bind; [apply compile_step_deadline|].
    intros [r|]; [apply appends_ret|apply run_step_deadline].
  - intros [] k; simpl; try discriminate; intros [= <-]; apply appends_ret.
Qed.

(** ** The time limit *)

(** The result of [execute_code] does not depend on [time_limit]. *)
Lemma time_limit_unused w source_code language stdin expected_output
    memory_limit h (t1 t2 : Q) :
  execute_code w source_code language stdin expected_output t1
    memory_limit h =
  execute_code w source_code language stdin expected_output t2
    memory_limit h.
Proof. unfold execute_code. destruct (LANGUAGE_MAP !! language); reflexivity. Qed.

(** C1.  The deadline of the run is [run_timeout] whatever [time_limit]
    says: the result is the same for every [time_limit], and every wait of a
    request uses [compile_timeout] or [run_timeout].  With a limit of 1
    second a program that takes 3 seconds is accepted, and with a limit of
    10 seconds a program that takes 7 is reported as timed out. *)
Theorem time_limit_not_enforced :
  (forall w source_code language stdin expected_output memory_limit h
          (t1 t2 : Q),
     execute_code w source_code language stdin expected_output t1
       memory_limit h =
     execute_code w source_code language stdin expected_output t2
       memory_limit h)
  /\ (forall w source_code language stdin expected_output time_limit
             memory_limit,
        appends fixed_deadline
          (execute_code w source_code language stdin expected_output
             time_limit memory_limit))
  /\ fst (execute_code (program 3 (ascii_bytes "done") [] 0)
            (lit "import time; time.sleep(3); print('done', end='')")
            (lit "python") None None 1 default_memory_limit idle)
     = Returned {| stdout := Some (lit "done"); stderr := None;
                   compile_output := None; status := lit "Accepted";
                   status_id := 3; time := None; memory := None;
                   exit_code := Some 0%Z |}
  /\ fst (execute_code (program 7 (ascii_bytes "done") [] 0)
            (lit "import time; time.sleep(7); print('done', end='')")
            (lit "python") None None 10 default_memory_limit idle)
     = Returned (failure (lit "Time Limit Exceeded") 5
                   (lit "Execution timed out (5 second limit)")).
Proof.
  split; [|split; [|split]].
  - intros. apply time_limit_unused.
  - intros. apply execute_code_deadline.
  - vm_compute. reflexivity.
  - vm_compute. reflexivity.
Qed.

(** ** The outer [try] and the steps of a request *)

(** [caught] is what the clauses of the outer [try] do. *)
Lemma outer_handler_caught w e :
  outer_handler w e =
  match caught w e with
  | Returned r => Some (ret r)
  | Raised _ => None
  end.
Proof. destruct e; reflexivity. Qed.

(** A request for a known language, once its directory exists: the body
    of the outer [try], then the clauses, then the deletion. *)
Lemma fallback_known w source_code language stdin config d h :
  lang_config (sys_executable w) !! language = Some config ->
  mkdtemp w = inr d ->
  _fallback_execute w source_code language stdin h =
  match attempt w config source_code language stdin d
          (snd (do_mkdtemp w h)) with
  | (Returned r, h1) => (Returned r, cleaned w d h1)
  | (Raised e, h1) => (caught w e, cleaned w d h1)
  end.
Proof.
  intros Hc Hd. unfold _fallback_execute. rewrite Hc.
  unfold bind at 1. unfold do_mkdtemp. rewrite Hd. simpl.
  unfold try_finally, try_except, swallow, cleaned.
  destruct (attempt _ _ _ _ _ _ _) as [[r|e] h1].
  - destruct (do_rmtree w d h1) as [[[]|e'] h2]; reflexivity.
  - destruct e; simpl; unfold ret;
      destruct (do_rmtree w d h1) as [[[]|e'] h2]; reflexivity.
Qed.

Lemma do_mkdtemp_returned w h d h0 :
  do_mkdtemp w h = (Returned d, h0) ->
  mkdtemp w = inr d /\ h0 = snd (do_mkdtemp w h).
Proof.
  unfold do_mkdtemp. destruct (mkdtemp w) as [e|d']; [discriminate|].
  intros [= -> <-]. split; reflexivity.
Qed.

Lemma attempt_reaches_run w source_code language stdin h config d h2 :
  reaches_run w source_code language h config d h2 ->
  mkdtemp w = inr d /\
  attempt w config source_code language stdin d (snd (do_mkdtemp w h))
  = run_step w config language d (source_path config language d) stdin h2.
Proof.
  intros (_ & h0 & h1 & Hm & Hw & Hc).
  apply do_mkdtemp_returned in Hm as [Hd ->]. split; [assumption|].
  unfold attempt, bind. rewrite Hw, Hc. reflexivity.
Qed.

(** A request that reaches the run step returns what the run step returns,
    or what the outer clauses make of the exception it raises. *)
Lemma execute_code_run_step w source_code language stdin expected_output
    time_limit memory_limit h config d h2 :
  reaches_run w source_code language h config d h2 ->
  execute_code w source_code language stdin expected_output time_limit
    memory_limit h =
  match run_step w config language d (source_path config language d)
          stdin h2 with
  | (Returned r, h3) => (Returned r, cleaned w d h3)
  | (Raised e, h3) => (caught w e, cleaned w d h3)
  end.
Proof.
  intros Hr. pose proof Hr as (Hc & _).
  apply (attempt_reaches_run _ _ _ stdin) in Hr as [Hd Ha].
  rewrite (execute_code_known _ _ _ _ _ _ _ _ Hc).
  rewrite (fallback_known _ _ _ _ _ _ _ Hc Hd). rewrite Ha. reflexivity.
Qed.

Lemma Qle_bool_false (a b : Q) : Qle_bool a b = false <-> (b < a)%Q.
Proof.
  split.
  - intros H. apply Qnot_le_lt. intros Hle.
    apply Qle_bool_iff in Hle. congruence.
  - intros H. destruct (Qle_bool a b) eqn:E; [|reflexivity].
    apply Qle_bool_iff in E. apply Qlt_not_le in H. contradiction.
Qed.

(** A process that exits overruns a deadline when it exits after it. *)
Lemma overruns_exits t out err rc timeout :
  overruns (Exits t out err rc) timeout <-> (timeout < t)%Q.
Proof. apply Qle_bool_false. Qed.

Lemma wait_overrun p input timeout h :
  overruns (behave p input) timeout ->
  wait_for_communicate p input timeout h =
  (Raised TimeoutError,
   {| dirs := dirs h; children := children h;
      waited := (waited h + timeout)%Q;
      log := Communicate (pid p) input timeout :: log h |}).
Proof.
  unfold overruns, wait_for_communicate.
  destruct (behave p input) as [t out err rc|]; [|reflexivity].
  intros ->. reflexivity.
Qed.

Lemma wait_exit p input timeout h t out err rc :
  behave p input = Exits t out err rc ->
  (t <= timeout)%Q ->
  wait_for_communicate p input timeout h =
  (Returned (out, err, rc),
   {| dirs := dirs h; children := children h ∖ {[ pid p ]};
      waited := (waited h + t)%Q;
      log := Communicate (pid p) input timeout :: log h |}).
Proof.
  intros Hb Ht. unfold wait_for_communicate. rewrite Hb.
  apply Qle_bool_iff in Ht. rewrite Ht. reflexivity.
Qed.

(** The run step when the program overruns the deadline. *)
Lemma run_step_overrun w config language d source_file stdin h p input :
  create_subprocess_exec w (run_command config language d source_file) d
    = inr p ->
  stdin_bytes w stdin = inr input ->
  overruns (behave p input) run_timeout ->
  run_step w config language d source_file stdin h =
  (Raised TimeoutError,
   {| dirs := dirs h; children := {[ pid p ]} ∪ children h;
      waited := (waited h + run_timeout)%Q;
      log := Communicate (pid p) input run_timeout
             :: Exec (run_command config language d source_file) d
             :: log h |}).
Proof.
  intros Hs Hi Ho. unfold run_step, try_except, bind, spawn.
  rewrite Hs, Hi. simpl. rewrite (wait_overrun _ _ _ _ Ho). reflexivity.
Qed.

(** The run step when the program exits in time. *)
Lemma run_step_exit w config language d source_file stdin h p input
    t out err rc :
  create_subprocess_exec w (run_command config language d source_file) d
    = inr p ->
  stdin_bytes w stdin = inr input ->
  behave p input = Exits t out err rc ->
  (t <= run_timeout)%Q ->
  run_step w config language d source_file stdin h =
  let h' :=
    {| dirs := dirs h;
       children := ({[ pid p ]} ∪ children h) ∖ {[ pid p ]};
       waited := (waited h + t)%Q;
       log := Communicate (pid p) input run_timeout
              :: Exec (run_command config language d source_file) d
              :: log h |} in
  match decode_or_none w out with
  | inl e => (Raised e, h')
  | inr so =>
    match decode_or_none w err with
    | inl e => (Raised e, h')
    | inr se =>
      (Returned {| stdout := so; stderr := se; compile_output := None;
                   status := if (rc =? 0)%Z then lit "Accepted"
                             else lit "Runtime Error";
                   status_id := if (rc =? 0)%Z then 3 else 11;
                   time := None; memory := None; exit_code := Some rc |},
       h')
    end
  end.
Proof.
  intros Hs Hi Hb Ht. unfold run_step, try_except, bind, spawn.
  rewrite Hs, Hi. simpl. rewrite (wait_exit _ _ _ _ _ _ _ _ Hb Ht). simpl.
  destruct (decode_or_none w out) as [e|so] eqn:Eo; simpl.
  - apply decode_or_none_exn in Eo as [m ->]. reflexivity.
  - destruct (decode_or_none w err) as [e|se] eqn:Ee; simpl; [|reflexivity].
    apply decode_or_none_exn in Ee as [m ->]. reflexivity.
Qed.

(** The compile step when the compiler starts and exits in time with a
    code other than 0. *)
Lemma compile_step_rejected w config language d source_file h c cc p
    t out err rc :
  compile config = Some (c :: cc) ->
  create_subprocess_exec w
    (compile_command (c :: cc) language d source_file) d = inr p ->
  behave p None = Exits t out err rc ->
  (t <= compile_timeout)%Q ->
  rc <> 0%Z ->
  compile_step w config language d source_file h =
  let h' :=
    {| dirs := dirs h;
       children := ({[ pid p ]} ∪ children h) ∖ {[ pid p ]};
       waited := (waited h + t)%Q;
       log := Communicate (pid p) None compile_timeout
              :: Exec (compile_command (c :: cc) language d source_file) d
              :: log h |} in
  match compile_message w err with
  | inl e => (Raised e, h')
  | inr co =>
    (Returned
       (Some {| stdout := None; stderr := None; compile_output := Some co;
                status := lit "Compilation Error"; status_id := 6;
                time := None; memory := None; exit_code := Some rc |}), h')
  end.
Proof.
  intros Hc Hs Hb Ht Hrc. unfold compile_step. rewrite Hc.
  unfold try_except, bind, spawn. rewrite Hs. simpl.
  rewrite (wait_exit _ _ _ _ _ _ _ _ Hb Ht). simpl.
  apply Z.eqb_neq in Hrc. rewrite Hrc.
  destruct (compile_message w err) as [e|co] eqn:Em; simpl; [|reflexivity].
  apply compile_message_exn in Em as [m ->]. reflexivity.
Qed.

(** On the hosts of [Scenario] a Python submission gets as far as running
    the interpreter. *)
Lemma python_reaches_run exec source_code h :
  reaches_run (base exec) source_code (lit "python") h python_config tmp
    (python_ready exec source_code h).
Proof.
  split; [reflexivity|]. eexists _, _. repeat split; reflexivity.
Qed.

(** ** Run phase *)

(** C8, amended.  When a request reaches the run step, the program starts,
    exits within the deadline the service enforces ([run_timeout]) and what
    it wrote on both streams is valid UTF-8, the result carries the decoded
    streams ([None] for an empty one) and the exit code, with status
    ["Accepted"] and id 3 if the exit code is 0 and ["Runtime Error"] and
    id 11 otherwise. *)
Theorem run_verdict_by_exit_code w source_code language stdin
    expected_output time_limit memory_limit h config d h2 p input
    t out err rc so se :
  reaches_run w source_code language h config d h2 ->
  create_subprocess_exec w
    (run_command config language d (source_path config language d)) d
    = inr p ->
  stdin_bytes w stdin = inr input ->
  behave p input = Exits t out err rc ->
  (t <= run_timeout)%Q ->
  decode_or_none w out = inr so ->
  decode_or_none w err = inr se ->
  exists r h',
    execute_code w source_code language stdin expected_output time_limit
      memory_limit h = (Returned r, h')
    /\ stdout r = so /\ stderr r = se /\ exit_code r = Some rc
    /\ compile_output r = None
    /\ (rc = 0%Z -> status r = lit "Accepted" /\ status_id r = 3%Z)
    /\ (rc <> 0%Z -> status r = lit "Runtime Error" /\ status_id r = 11%Z).
Proof.
  intros Hr Hs Hi Hb Ht Ho He.
  rewrite (execute_code_run_step _ _ _ _ _ _ _ _ _ _ _ Hr).
  rewrite (run_step_exit _ _ _ _ _ _ _ _ _ _ _ _ _ Hs Hi Hb Ht).
  cbv zeta. rewrite Ho, He. eexists _, _. split; [reflexivity|]. simpl.
  do 4 (split; [reflexivity|]). split.
  - intros ->. split; reflexivity.
  - intros Hrc. apply Z.eqb_neq in Hrc. rewrite Hrc. split; reflexivity.
Qed.

(** [print('hello')] is accepted. *)
Lemma run_verdict_by_exit_code_hello :
  exists r h',
    execute_code hello (lit "print('hello')") (lit "python") None None
      default_time_limit default_memory_limit idle = (Returned r, h')
    /\ stdout r = Some (lit "hello
") /\ stderr r = None /\ exit_code r = Some 0%Z
    /\ compile_output r = None
    /\ (0%Z = 0%Z -> status r = lit "Accepted" /\ status_id r = 3%Z)
    /\ (0%Z <> 0%Z -> status r = lit "Runtime Error" /\ status_id r = 11%Z).
Proof.
  eapply (run_verdict_by_exit_code hello (lit "print('hello')") (lit "python")
            None None default_time_limit default_memory_limit idle
            python_config tmp (python_ready _ (lit "print('hello')") idle)
            _ None (1 # 10) (ascii_bytes "hello
") [] 0%Z).
  - apply python_reaches_run.
  - reflexivity.
  - reflexivity.
  - reflexivity.
  - apply Qle_bool_iff. reflexivity.
  - reflexivity.
  - reflexivity.
Defined.

(** A program that exits with code 0 in a tenth of a second, having
    written the single byte 255, is not accepted: the byte is not UTF-8,
    decoding raises, and the result is the one for an unexpected error, with
    no exit code. *)
Lemma undecodable_output_is_an_error :
  fst (execute_code (program (1 # 10) [xff] [] 0)
         (lit "import sys; sys.stdout.buffer.write(bytes([255]))")
         (lit "python") None None default_time_limit default_memory_limit
         idle)
  = Returned
      {| stdout := None;
         stderr := Some (lit "Execution error: 'utf-8' codec can't decode byte
Traceback (most recent call last): ...");
         compile_output := None; status := lit "Error"; status_id := -1;
         time := None; memory := None; exit_code := None |}.
Proof. vm_compute. reflexivity. Qed.

(** C3, amended.  When a request reaches the run step and the program does
    not exit within [run_timeout], the result is ["Time Limit Exceeded"]
    with id 5 and a message about the timeout.  The wait ends at the
    deadline; after it the service only tries to delete the directory: the
    process is still among the children of the host when the call
    returns. *)
Theorem run_timeout_verdict w source_code language stdin expected_output
    time_limit memory_limit h config d h2 p input :
  reaches_run w source_code language h config d h2 ->
  create_subprocess_exec w
    (run_command config language d (source_path config language d)) d
    = inr p ->
  stdin_bytes w stdin = inr input ->
  overruns (behave p input) run_timeout ->
  exists h',
    execute_code w source_code language stdin expected_output time_limit
      memory_limit h =
      (Returned (failure (lit "Time Limit Exceeded") 5
                   (lit "Execution timed out (5 second limit)")), h')
    /\ pid p ∈ children h'
    /\ waited h' = (waited h2 + run_timeout)%Q
    /\ log h' =
       Rmtree d :: Communicate (pid p) input run_timeout
       :: Exec (run_command config language d (source_path config language d))
            d
       :: log h2.
Proof.
  intros Hr Hs Hi Ho.
  rewrite (execute_code_run_step _ _ _ _ _ _ _ _ _ _ _ Hr).
  rewrite (run_step_overrun _ _ _ _ _ _ _ _ _ Hs Hi Ho).
  eexists. split; [reflexivity|].
  unfold cleaned, do_rmtree. destruct (rmtree w d); simpl;
    (split; [set_solver | split; reflexivity]).
Qed.

(** [while True: pass] is timed out. *)
Lemma run_timeout_verdict_spinning :
  exists h',
    execute_code spinning (lit "while True: pass") (lit "python") None None
      default_time_limit default_memory_limit idle =
      (Returned (failure (lit "Time Limit Exceeded") 5
                   (lit "Execution timed out (5 second limit)")), h')
    /\ 7%positive ∈ children h'
    /\ waited h' = (0 + run_timeout)%Q
    /\ log h' =
       [ Rmtree tmp; Communicate 7 None run_timeout;
         Exec [lit "/usr/bin/python3"; tmp ++ lit "/code.py"] tmp;
         WriteFile (tmp ++ lit "/code.py") (lit "while True: pass");
         Mkdtemp ].
Proof.
  eapply (run_timeout_verdict spinning (lit "while True: pass") (lit "python")
            None None default_time_limit default_memory_limit idle
            python_config tmp (python_ready _ (lit "while True: pass") idle)
            {| pid := 7; behave := fun _ => Hangs |} None).
  - apply python_reaches_run.
  - reflexivity.
  - reflexivity.
  - exact I.
Defined.

(** After the call has returned for [while True: pass], the interpreter it
    started is still running: the host had no child before the call and has
    process 7 as a child after it. *)
Lemma timed_out_process_survives :
  fst (execute_code spinning (lit "while True: pass") (lit "python") None None
         default_time_limit default_memory_limit idle)
  = Returned (failure (lit "Time Limit Exceeded") 5
                (lit "Execution timed out (5 second limit)"))
  /\ elements (children idle) = []
  /\ elements (children
       (snd (execute_code spinning (lit "while True: pass") (lit "python")
               None None default_time_limit default_memory_limit idle)))
     = [7%positive].
Proof. repeat split; vm_compute; reflexivity. Qed.




(** ** Compile phase *)

(** C7, amended.  For a language with a compile step, when the compiler
    starts, exits within [compile_timeout] with a code other than 0, and
    what it wrote on its standard error is empty or valid UTF-8, the result
    is ["Compilation Error"] with id 6, no [stdout], the compiler's exit
    code, and as [compile_output] the decoded standard error, or
    ["Compilation failed"] when that is empty.  The program is not
    started: the compiler is the only process of the request. *)
Theorem compile_error_verdict w source_code language stdin expected_output
    time_limit memory_limit h config c cc d p t out err rc co :
  lang_config (sys_executable w) !! language = Some config ->
  compile config = Some (c :: cc) ->
  mkdtemp w = inr d ->
  write_file w (source_path config language d) source_code = None ->
  create_subprocess_exec w
    (compile_command (c :: cc) language d (source_path config language d)) d
    = inr p ->
  behave p None = Exits t out err rc ->
  (t <= compile_timeout)%Q ->
  rc <> 0%Z ->
  compile_message w err = inr co ->
  exists h',
    execute_code w source_code language stdin expected_output time_limit
      memory_limit h =
      (Returned {| stdout := None; stderr := None; compile_output := Some co;
                   status := lit "Compilation Error"; status_id := 6;
                   time := None; memory := None; exit_code := Some rc |}, h')
    /\ (err = [] -> co = lit "Compilation failed")
    /\ (err <> [] -> decode err = Some co)
    /\ log h' =
       Rmtree d :: Communicate (pid p) None compile_timeout
       :: Exec (compile_command (c :: cc) language d
                  (source_path config language d)) d
       :: WriteFile (source_path config language d) source_code
       :: Mkdtemp :: log h.
Proof.
  intros Hl Hc Hd Hw Hs Hb Ht Hrc Hm.
  rewrite (execute_code_known _ _ _ _ _ _ _ _ Hl).
  rewrite (fallback_known _ _ _ _ _ _ _ Hl Hd).
  unfold attempt, bind at 1, do_write. rewrite Hw.
  unfold bind. rewrite (compile_step_rejected _ _ _ _ _ _ _ _ _ _ _ _ _ Hc Hs Hb Ht Hrc).
  cbv zeta. rewrite Hm. eexists. split; [reflexivity|].
  split; [|split].
  - intros ->. injection Hm as <-. reflexivity.
  - intros Hne. unfold compile_message, py_decode in Hm.
    destruct err; [congruence|]. change (truthy (b :: err)) with true in Hm.
    cbv iota in Hm. destruct (decode (b :: err)); congruence.
  - unfold cleaned, do_rmtree, do_mkdtemp. rewrite Hd.
    destruct (rmtree w d); reflexivity.
Qed.

(** [g++] rejects a source. *)
Lemma compile_error_verdict_missing_brace :
  exists h',
    execute_code (rejected (ascii_bytes "code.cpp:1:12: error: expected '}'"))
      (lit "int main() {") (lit "cpp") None None default_time_limit
      default_memory_limit idle =
      (Returned {| stdout := None; stderr := None;
                   compile_output :=
                     Some (lit "code.cpp:1:12: error: expected '}'");
                   status := lit "Compilation Error"; status_id := 6;
                   time := None; memory := None; exit_code := Some 1%Z |}, h')
    /\ (ascii_bytes "code.cpp:1:12: error: expected '}'" = [] ->
        lit "code.cpp:1:12: error: expected '}'" = lit "Compilation failed")
    /\ (ascii_bytes "code.cpp:1:12: error: expected '}'" <> [] ->
        decode (ascii_bytes "code.cpp:1:12: error: expected '}'")
        = Some (lit "code.cpp:1:12: error: expected '}'"))
    /\ log h' =
       [ Rmtree tmp; Communicate 5 None compile_timeout;
         Exec [lit "g++"; lit "-o"; tmp ++ lit "/program";
               tmp ++ lit "/code.cpp"] tmp;
         WriteFile (tmp ++ lit "/code.cpp") (lit "int main() {");
         Mkdtemp ].
Proof.
  eapply (compile_error_verdict
            (rejected (ascii_bytes "code.cpp:1:12: error: expected '}'"))
            (lit "int main() {") (lit "cpp") None None default_time_limit
            default_memory_limit idle cpp_config (lit "g++") [lit "-o"] tmp
            {| pid := 5;
               behave := fun _ =>
                 Exits (1 # 2) []
                   (ascii_bytes "code.cpp:1:12: error: expected '}'") 1 |}
            (1 # 2) []
            (ascii_bytes "code.cpp:1:12: error: expected '}'") 1%Z).
  - reflexivity.
  - reflexivity.
  - reflexivity.
  - reflexivity.
  - reflexivity.
  - reflexivity.
  - apply Qle_bool_iff. reflexivity.
  - discriminate.
  - reflexivity.
Defined.

(** [g++] rejects a source and writes the byte 233 (an e with an acute
    accent in Latin-1) in its message: the result is not a compilation
    error but the one for an unexpected error, without exit code. *)
Lemma undecodable_diagnostic_is_an_error :
  fst (execute_code (rejected [xe9]) (lit "int main() {") (lit "cpp")
         None None default_time_limit default_memory_limit idle)
  = Returned
      {| stdout := None;
         stderr := Some (lit "Execution error: 'utf-8' codec can't decode byte
Traceback (most recent call last): ...");
         compile_output := None; status := lit "Error"; status_id := -1;
         time := None; memory := None; exit_code := None |}.
Proof. vm_compute. reflexivity. Qed.

(** ** The workspace *)

Lemma log_cleaned w d h : log (cleaned w d h) = Rmtree d :: log h.
Proof. unfold cleaned, do_rmtree. destruct (rmtree w d); reflexivity. Qed.

Lemma dirs_cleaned w d h : rmtree w d = None -> d ∉ dirs (cleaned w d h).
Proof.
  unfold cleaned, do_rmtree. intros ->. simpl.
  rewrite elem_of_difference, elem_of_singleton. tauto.
Qed.

(** C5.  Once the directory of a request has been created, every way out of
    the request ends with the attempt to delete it; the directory is gone
    when that attempt succeeds; and whether the attempt succeeds or raises
    has no effect on what the caller gets. *)
Theorem workspace_removed_on_every_path w source_code language stdin
    expected_output time_limit memory_limit h config d :
  lang_config (sys_executable w) !! language = Some config ->
  mkdtemp w = inr d ->
  exists o h',
    execute_code w source_code language stdin expected_output time_limit
      memory_limit h = (o, h')
    /\ (exists before, log h' = Rmtree d :: before)
    /\ (rmtree w d = None -> d ∉ dirs h')
    /\ (forall f,
          fst (execute_code (with_rmtree w f) source_code language stdin
                 expected_output time_limit memory_limit h) = o).
Proof.
  intros Hl Hd.
  rewrite (execute_code_known _ _ _ _ _ _ _ _ Hl).
  rewrite (fallback_known _ _ _ _ _ _ _ Hl Hd).
  assert (Hf : forall f,
    fst (execute_code (with_rmtree w f) source_code language stdin
           expected_output time_limit memory_limit h) =
    match attempt w config source_code language stdin d
            (snd (do_mkdtemp w h)) with
    | (Returned r, _) => Returned r
    | (Raised e, _) => caught w e
    end).
  { intros f.
    rewrite (execute_code_known (with_rmtree w f) _ _ _ _ _ _ _ Hl).
    rewrite (fallback_known (with_rmtree w f) _ _ _ _ _ _ Hl Hd).
    change (attempt (with_rmtree w f)) with (attempt w).
    change (do_mkdtemp (with_rmtree w f)) with (do_mkdtemp w).
    destruct (attempt w config source_code language stdin d _) as [[r|e] h1];
      [reflexivity|]. destruct e; reflexivity. }
  destruct (attempt w config source_code language stdin d _) as [[r|e] h1].
  - eexists _, _. split; [reflexivity|].
    split; [eexists; apply log_cleaned|].
    split; [apply dirs_cleaned|exact Hf].
  - eexists _, _. split; [reflexivity|].
    split; [eexists; apply log_cleaned|].
    split; [apply dirs_cleaned|exact Hf].
Qed.

(** The directory of [print('hello')] is deleted. *)
Lemma workspace_removed_on_every_path_hello :
  exists o h',
    execute_code hello (lit "print('hello')") (lit "python") None None
      default_time_limit default_memory_limit idle = (o, h')
    /\ (exists before, log h' = Rmtree tmp :: before)
    /\ (rmtree hello tmp = None -> tmp ∉ dirs h')
    /\ (forall f,
          fst (execute_code (with_rmtree hello f) (lit "print('hello')")
                 (lit "python") None None default_time_limit
                 default_memory_limit idle) = o).
Proof.
  apply (workspace_removed_on_every_path hello (lit "print('hello')")
           (lit "python") None None default_time_limit default_memory_limit
           idle python_config tmp).
  - reflexivity.
  - reflexivity.
Defined.

(** When the deletion fails the caller gets the same result, and the
    directory is still there. *)
Lemma failed_deletion_is_silent :
  fst (execute_code undeletable (lit "print('hello')") (lit "python") None
         None default_time_limit default_memory_limit idle)
  = fst (execute_code hello (lit "print('hello')") (lit "python") None
           None default_time_limit default_memory_limit idle)
  /\ elements (dirs (snd (execute_code undeletable (lit "print('hello')")
                            (lit "python") None None default_time_limit
                            default_memory_limit idle))) = [tmp].
Proof. split; vm_compute; reflexivity. Qed.

(** ** Exceptions *)

(** C6, amended.  Once the directory of a request has been created, an
    exception of class [Exception] that leaves the body of the outer [try]
    does not reach the caller; the caller gets a result: ["Time Limit
    Exceeded"] for a timeout, ["Runtime Not Found"] for a
    [FileNotFoundError], and for any other one ["Error"] with id -1 and the
    message and traceback in [stderr]. *)
Theorem exceptions_become_results w source_code language stdin
    expected_output time_limit memory_limit h config d e h1 :
  lang_config (sys_executable w) !! language = Some config ->
  mkdtemp w = inr d ->
  attempt w config source_code language stdin d (snd (do_mkdtemp w h))
    = (Raised e, h1) ->
  (forall m, e <> NonException m) ->
  exists r,
    execute_code w source_code language stdin expected_output time_limit
      memory_limit h = (Returned r, cleaned w d h1)
    /\ match e with
       | TimeoutError =>
         r = failure (lit "Time Limit Exceeded") 5
               (lit "Execution timed out (5 second limit)")
       | FileNotFoundError m =>
         r = failure (lit "Runtime Not Found") (-1)
               (lit "Could not find runtime: " ++ m)
       | OtherException m =>
         r = failure (lit "Error") (-1)
               (lit "Execution error: " ++ m ++ [10%N] ++ format_exc w e)
       | NonException _ => False
       end.
Proof.
  intros Hl Hd Ha He.
  rewrite (execute_code_known _ _ _ _ _ _ _ _ Hl).
  rewrite (fallback_known _ _ _ _ _ _ _ Hl Hd). rewrite Ha.
  destruct e as [|m|m|m]; simpl; try (eexists; split; reflexivity).
  exfalso. exact (He m eq_refl).
Qed.

(** A full disk is reported as an error. *)
Lemma exceptions_become_results_disk_full :
  exists r,
    execute_code disk_full (lit "print('hello')") (lit "python") None None
      default_time_limit default_memory_limit idle
    = (Returned r,
       cleaned disk_full tmp (python_ready (fun _ _ => proc 7 Hangs)
                                (lit "print('hello')") idle))
    /\ r = failure (lit "Error") (-1)
             (lit "Execution error: "
              ++ lit "[Errno 28] No space left on device" ++ [10%N]
              ++ lit "Traceback (most recent call last): ...").
Proof.
  apply (exceptions_become_results disk_full (lit "print('hello')")
           (lit "python") None None default_time_limit default_memory_limit
           idle python_config tmp
           (OtherException (lit "[Errno 28] No space left on device"))
           (python_ready (fun _ _ => proc 7 Hangs) (lit "print('hello')")
              idle)).
  - reflexivity.
  - reflexivity.
  - reflexivity.
  - discriminate.
Defined.

(** Three exceptions that are not turned into the result for an unexpected
    error: a [FileNotFoundError] raised while the source is written comes
    back as ["Runtime Not Found"]; a cancellation reaches the caller; and
    so does an exception of [tempfile.mkdtemp]. *)
Lemma not_every_exception_is_an_error :
  fst (execute_code directory_vanished (lit "print('hello')") (lit "python")
         None None default_time_limit default_memory_limit idle)
  = Returned (failure (lit "Runtime Not Found") (-1)
                (lit "Could not find runtime: [Errno 2] No such file or directory"))
  /\ fst (execute_code cancelled (lit "print('hello')") (lit "python")
            None None default_time_limit default_memory_limit idle)
     = Raised (NonException (lit "CancelledError"))
  /\ fst (execute_code no_tmp (lit "print('hello')") (lit "python")
            None None default_time_limit default_memory_limit idle)
     = Raised (FileNotFoundError
                 (lit "[Errno 2] No usable temporary directory found")).
Proof. repeat split; vm_compute; reflexivity. Qed.

(** The directory is created before the outer [try] is entered: an
    exception of [tempfile.mkdtemp] reaches the caller. *)
Lemma mkdtemp_failure_reaches_caller w source_code language stdin
    expected_output time_limit memory_limit h config e :
  lang_config (sys_executable w) !! language = Some config ->
  mkdtemp w = inl e ->
  execute_code w source_code language stdin expected_output time_limit
    memory_limit h = (Raised e, logged Mkdtemp h).
Proof.
  intros Hl He. rewrite (execute_code_known _ _ _ _ _ _ _ _ Hl).
  unfold _fallback_execute. rewrite Hl. unfold bind, do_mkdtemp.
  rewrite He. reflexivity.
Qed.

(** ** [check_solution] *)

Lemma judge_passed i test_case result :
  r_passed (judge i test_case result) = true <->
  strip (or_empty (stdout result))
  = strip (get_or_empty (tc_expected_output test_case)).
Proof. unfold judge. simpl. apply bool_decide_eq_true. Qed.

(** The verdict plays no part in the comparison. *)
Lemma judge_ignores_status i test_case r r' :
  stdout r = stdout r' ->
  r_passed (judge i test_case r) = r_passed (judge i test_case r').
Proof. unfold judge. simpl. intros ->. reflexivity. Qed.

(** The [error] of a case is [stderr], or [compile_output] when [stderr] is
    absent or empty. *)
Lemma judge_error i test_case r :
  r_error (judge i test_case r) =
  match stderr r with
  | Some (_ :: _) => stderr r
  | _ => compile_output r
  end.
Proof. unfold judge, py_or. simpl. destruct (stderr r) as [[|? ?]|]; reflexivity. Qed.

(** The report of [check_solution]: one entry per case, in order, each the
    judgement of a result that [execute_code] returned for that case. *)
Lemma check_loop_returned w source_code language time_limit test_cases :
  forall i acc n h rs n' h',
    check_loop w source_code language time_limit i test_cases acc n h
      = (Returned (rs, n'), h') ->
    exists rs',
      rs = rev acc ++ rs'
      /\ length rs' = length test_cases
      /\ n' = (n + length (filter (fun c => r_passed c = true) rs'))%nat
      /\ forall k test_case,
           test_cases !! k = Some test_case ->
           exists r h1 h2,
             execute_code w source_code language
               (Some (get_or_empty (tc_input test_case)))
               (tc_expected_output test_case) time_limit
               default_memory_limit h1 = (Returned r, h2)
             /\ rs' !! k = Some (judge (i + k) test_case r).
Proof.
  induction test_cases as [|tc rest IH]; intros i acc n h rs n' h';
    cbn [check_loop].
  - unfold ret. intros [= <- <- <-]. exists []. rewrite app_nil_r.
    repeat split; [simpl; lia|]. intros k t Hk. discriminate.
  - unfold bind at 1.
    destruct (execute_code _ _ _ _ _ _ _ h) as [[r|e] h1] eqn:Ex;
      [|discriminate].
    intros Hloop. remember (judge i tc r) as c eqn:Ec.
    apply IH in Hloop as (rs' & -> & Hlen & -> & Hk).
    exists (c :: rs'). simpl. rewrite <- app_assoc. simpl.
    split; [reflexivity|]. split; [congruence|]. split.
    + rewrite filter_cons. destruct (r_passed c) eqn:Ep.
      * rewrite decide_True by reflexivity. simpl. lia.
      * rewrite decide_False by discriminate. lia.
    + intros [|k] t Ht; simpl in Ht.
      * injection Ht as <-. exists r, h, h1. rewrite Nat.add_0_r.
        split; [exact Ex|]. rewrite Ec. reflexivity.
      * destruct (Hk k t Ht) as (r' & ha & hb & Hex & Hlook).
        exists r', ha, hb. split; [exact Hex|].
        rewrite Nat.add_succ_r. exact Hlook.
Qed.

Lemma check_solution_returned w source_code language test_cases time_limit
    h report h' :
  check_solution w source_code language test_cases time_limit h
    = (Returned report, h') ->
  total report = length test_cases
  /\ length (results report) = length test_cases
  /\ passed report
     = length (filter (fun c => r_passed c = true) (results report))
  /\ all_passed report = (passed report =? total report)%nat
  /\ forall k test_case,
       test_cases !! k = Some test_case ->
       exists r h1 h2,
         execute_code w source_code language
           (Some (get_or_empty (tc_input test_case)))
           (tc_expected_output test_case) time_limit
           default_memory_limit h1 = (Returned r, h2)
         /\ results report !! k = Some (judge k test_case r).
Proof.
  unfold check_solution, bind.
  destruct (check_loop _ _ _ _ _ _ _ _ h) as [[[rs n]|e] h1] eqn:El;
    [|discriminate].
  intros [= <- <-]. simpl.
  apply check_loop_returned in El as (rs' & -> & Hlen & -> & Hk).
  simpl. repeat split; assumption || reflexivity.
Qed.

(** C9.  In the report of [check_solution] the entry of each test case
    compares what is left of the output of that case's run and of its
    expected output once the white space at both ends is gone, and the
    comparison is equality of texts: if the run wrote [ca] and the case
    expects [ce], each between two runs of white space, and neither starts
    or ends with white space, the entry records [ca] and [ce] and passed
    exactly when [ca] and [ce] are the same text. *)
Theorem output_comparison w source_code language test_cases time_limit h
    report h' k test_case :
  check_solution w source_code language test_cases time_limit h
    = (Returned report, h') ->
  test_cases !! k = Some test_case ->
  exists r h1 h2 c,
    execute_code w source_code language
      (Some (get_or_empty (tc_input test_case)))
      (tc_expected_output test_case) time_limit default_memory_limit h1
      = (Returned r, h2)
    /\ results report !! k = Some c
    /\ forall la ca ra le ce re : pystr,
         or_empty (stdout r) = la ++ ca ++ ra ->
         get_or_empty (tc_expected_output test_case) = le ++ ce ++ re ->
         blank la -> blank ra -> blank le -> blank re ->
         trimmed ca -> trimmed ce ->
         r_actual c = ca /\ r_expected c = ce
         /\ (r_passed c = true <-> ca = ce).
Proof.
  intros E Hk.
  apply check_solution_returned in E as (_ & _ & _ & _ & Hcases).
  destruct (Hcases k test_case Hk) as (r & h1 & h2 & Hex & Hlook).
  exists r, h1, h2, (judge k test_case r).
  split; [exact Hex|]. split; [exact Hlook|].
  intros la ca ra le ce re Ha He Hla Hra Hle Hre Hca Hce.
  assert (Sa : strip (or_empty (stdout r)) = ca).
  { rewrite Ha, strip_padding by assumption. apply strip_trimmed, Hca. }
  assert (Se : strip (get_or_empty (tc_expected_output test_case)) = ce).
  { rewrite He, strip_padding by assumption. apply strip_trimmed, Hce. }
  split; [exact Sa|]. split; [exact Se|].
  rewrite judge_passed, Sa, Se. reflexivity.
Qed.

(** The two comparisons of the specification, each as a call of
    [check_solution] with one test case that expects ["42"]: a program
    that prints ["42\n"] passes, one that prints [" 43"] fails. *)
Lemma output_comparison_examples :
  (exists report h' c,
     check_solution (program (1 # 10) (ascii_bytes "42
") [] 0) (lit "print(42)") (lit "python") [ expecting (lit "42") ]
       default_time_limit idle = (Returned report, h')
     /\ results report !! 0%nat = Some c
     /\ r_actual c = lit "42" /\ r_expected c = lit "42"
     /\ r_passed c = true)
  /\ (exists report h' c,
        check_solution (program (1 # 10) (ascii_bytes " 43") [] 0)
          (lit "print(' 43', end='')") (lit "python")
          [ expecting (lit "42") ] default_time_limit idle
          = (Returned report, h')
        /\ results report !! 0%nat = Some c
        /\ r_actual c = lit "43" /\ r_expected c = lit "42"
        /\ r_passed c = false).
Proof.
  split.
  - destruct (check_solution (program (1 # 10) (ascii_bytes "42
") [] 0) (lit "print(42)") (lit "python") [ expecting (lit "42") ]
                default_time_limit idle) as [[report|e] h'] eqn:E;
      [|vm_compute in E; discriminate E].
    destruct (output_comparison _ _ _ _ _ _ _ _ 0%nat (expecting (lit "42"))
                E eq_refl) as (r & h1 & h2 & c & Hex & Hlook & Hcmp).
    assert (Hr : or_empty (stdout r) = [] ++ lit "42" ++ [10%N]).
    { apply (f_equal fst) in Hex. vm_compute in Hex.
      injection Hex as <-. reflexivity. }
    destruct (Hcmp [] (lit "42") [10%N] [] (lit "42") [] Hr eq_refl
                eq_refl eq_refl eq_refl eq_refl
                (conj eq_refl eq_refl) (conj eq_refl eq_refl))
      as (Ha & He & Hp).
    exists report, h', c. split; [reflexivity|]. split; [exact Hlook|].
    split; [exact Ha|]. split; [exact He|]. apply Hp. reflexivity.
  - destruct (check_solution (program (1 # 10) (ascii_bytes " 43") [] 0)
                (lit "print(' 43', end='')") (lit "python")
                [ expecting (lit "42") ] default_time_limit idle)
      as [[report|e] h'] eqn:E; [|vm_compute in E; discriminate E].
    destruct (output_comparison _ _ _ _ _ _ _ _ 0%nat (expecting (lit "42"))
                E eq_refl) as (r & h1 & h2 & c & Hex & Hlook & Hcmp).
    assert (Hr : or_empty (stdout r) = [32%N] ++ lit "43" ++ []).
    { apply (f_equal fst) in Hex. vm_compute in Hex.
      injection Hex as <-. reflexivity. }
    destruct (Hcmp [32%N] (lit "43") [] [] (lit "42") [] Hr eq_refl
                eq_refl eq_refl eq_refl eq_refl
                (conj eq_refl eq_refl) (conj eq_refl eq_refl))
      as (Ha & He & Hp).
    exists report, h', c. split; [reflexivity|]. split; [exact Hlook|].
    split; [exact Ha|]. split; [exact He|].
    destruct (r_passed c); [|reflexivity].
    pose proof (proj1 Hp eq_refl) as Hq. vm_compute in Hq. discriminate Hq.
Defined.

(** White space inside the text, letter case and the way a number is
    written all count: the verdicts of [check_solution] for a program that
    prints [out] and one test case that expects [expected]. *)
Lemma comparison_is_exact :
  let verdicts (out expected : string) :=
    match fst (check_solution (program (1 # 10) (ascii_bytes out) [] 0)
                 (lit "print(...)") (lit "python") [ expecting (lit expected) ]
                 default_time_limit idle) with
    | Returned report => Some (map r_passed (results report))
    | Raised _ => None
    end in
  (verdicts "4  2" "4 2" = Some [false]
   /\ verdicts "yes" "Yes" = Some [false]
   /\ verdicts "1.0" "1" = Some [false]
   /\ verdicts "a b" "  a b
" = Some [true])%string.
Proof. repeat split; vm_compute; reflexivity. Qed.

(** C4.  Only the outputs are compared: the status, the status id and the
    exit code of a result play no part in whether its case passes.  A
    program that prints the expected output and then exits with code 1 gets
    the status ["Runtime Error"], and its case is recorded as passed. *)
Theorem crashed_run_recorded_as_passed :
  (forall i test_case r (s : pystr) (n : Z) (c : option Z),
     r_passed (judge i test_case
                 {| stdout := stdout r; stderr := stderr r;
                    compile_output := compile_output r;
                    status := s; status_id := n;
                    time := time r; memory := memory r; exit_code := c |})
     = r_passed (judge i test_case r))
  /\ fst (check_solution
            (program (1 # 10) (ascii_bytes "42
") [] 1)
            (lit "print(42); raise SystemExit(1)") (lit "python")
            [ expecting (lit "42") ] default_time_limit idle)
     = Returned
         {| passed := 1; total := 1; all_passed := true;
            results :=
              [ {| r_test_case := 1; r_passed := true; r_input := [];
                   r_expected := lit "42"; r_actual := lit "42";
                   r_status := lit "Runtime Error"; r_time := None;
                   r_error := None |} ] |}.
Proof.
  split.
  - intros. apply judge_ignores_status. reflexivity.
  - vm_compute. reflexivity.
Qed.

(** * More of the service *)

(** ** Rules for what a computation returns *)

Section Yields.

Context {A : Type} (P : A -> Prop).

Lemma yields_ret (a : A) : P a -> yields P (ret a).
Proof. intros Ha h a' h' [= <- _]. exact Ha. Qed.

Lemma yields_raise (e : exn) : yields P (raise e).
Proof. intros h a h' [=]. Qed.

Lemma yields_bind {B} (m : M B) (k : B -> M A) :
  (forall b, yields P (k b)) -> yields P (bind m k).
Proof.
  intros Hk h a h'. unfold bind. destruct (m h) as [[b|e] h1].
  - apply Hk.
  - discriminate.
Qed.

Lemma yields_bind_of {B} (Q : B -> Prop) (m : M B) (k : B -> M A) :
  yields Q m -> (forall b, Q b -> yields P (k b)) -> yields P (bind m k).
Proof.
  intros Hm Hk h a h'. unfold bind. destruct (m h) as [[b|e] h1] eqn:E.
  - apply Hk. exact (Hm _ _ _ E).
  - discriminate.
Qed.

Lemma yields_try_except (m : M A) (handler : exn -> option (M A)) :
  yields P m ->
  (forall e k, handler e = Some k -> yields P k) ->
  yields P (try_except m handler).
Proof.
  intros Hm Hk h a h'. unfold try_except.
  destruct (m h) as [[b|e] h1] eqn:E.
  - intros [= <- <-]. exact (Hm _ _ _ E).
  - destruct (handler e) as [k|] eqn:Eh; [|discriminate].
    apply (Hk _ _ Eh).
Qed.

Lemma yields_try_finally (m : M A) (fin : M unit) :
  yields P m -> yields P (try_finally m fin).
Proof.
  intros Hm h a h'. unfold try_finally.
  destruct (m h) as [o h1] eqn:E. destruct (fin h1) as [[[]|e] h2].
  - intros [= -> <-]. exact (Hm _ _ _ E).
  - discriminate.
Qed.

End Yields.

Lemma yields_lift {A} (P : A -> Prop) (x : exn + A) :
  (forall a, x = inr a -> P a) -> yields P (lift x).
Proof.
  intros Hx. destruct x as [e|a]; [apply yields_raise|].
  apply yields_ret. apply Hx. reflexivity.
Qed.

Lemma yields_weaken {A} (P Q : A -> Prop) (m : M A) :
  (forall a, P a -> Q a) -> yields P m -> yields Q m.
Proof. intros HPQ Hm h a h' E. apply HPQ. exact (Hm _ _ _ E). Qed.

(** ** Rules for what a computation spends *)

Section Spends.

Variable R : nat -> host -> host -> Prop.
Hypothesis R_refl : forall h, R 0 h h.
Hypothesis R_trans :
  forall n1 n2 h h1 h2, R n1 h h1 -> R n2 h1 h2 -> R (n1 + n2) h h2.
Hypothesis R_mono : forall n n' h h', (n <= n')%nat -> R n h h' -> R n' h h'.

Lemma spends_more {A} (n n' : nat) (m : M A) :
  (n <= n')%nat -> spends R n m -> spends R n' m.
Proof. intros Hle Hm h. eapply R_mono; [exact Hle|apply Hm]. Qed.

Lemma spends_ret {A} (a : A) : spends R 0 (ret a).
Proof. intros h. apply R_refl. Qed.

Lemma spends_raise {A} (e : exn) : spends R 0 (@raise A e).
Proof. intros h. apply R_refl. Qed.

Lemma spends_lift {A} (x : exn + A) : spends R 0 (lift x).
Proof. destruct x; [apply spends_raise|apply spends_ret]. Qed.

Lemma spends_bind_of {A B} (Q : A -> Prop) (n1 n2 : nat) (m : M A)
    (k : A -> M B) :
  spends R n1 m -> yields Q m -> (forall a, Q a -> spends R n2 (k a)) ->
  spends R (n1 + n2) (bind m k).
Proof.
  intros Hm Hq Hk h. unfold bind. pose proof (Hm h) as H1.
  destruct (m h) as [[a|e] h1] eqn:E; simpl in H1.
  - eapply R_trans; [exact H1|]. apply Hk. exact (Hq _ _ _ E).
  - simpl. eapply R_mono; [|exact H1]. lia.
Qed.

Lemma spends_bind {A B} (n1 n2 : nat) (m : M A) (k : A -> M B) :
  spends R n1 m -> (forall a, spends R n2 (k a)) ->
  spends R (n1 + n2) (bind m k).
Proof.
  intros Hm Hk. apply (spends_bind_of (fun _ => True)); auto.
  intros h a h' _. exact I.
Qed.

Lemma spends_try_except {A} (n1 n2 : nat) (m : M A)
    (handler : exn -> option (M A)) :
  spends R n1 m ->
  (forall e k, handler e = Some k -> spends R n2 k) ->
  spends R (n1 + n2) (try_except m handler).
Proof.
  intros Hm Hk h. unfold try_except. pose proof (Hm h) as H1.
  destruct (m h) as [[a|e] h1]; simpl in H1.
  - simpl. eapply R_mono; [|exact H1]. lia.
  - destruct (handler e) as [k|] eqn:Eh.
    + eapply R_trans; [exact H1|]. apply (Hk _ _ Eh).
    + simpl. eapply R_mono; [|exact H1]. lia.
Qed.

Lemma spends_swallow (n : nat) (m : M unit) :
  spends R n m -> spends R n (swallow m).
Proof.
  intros Hm h. unfold swallow. pose proof (Hm h) as H1.
  destruct (m h) as [o h1]. exact H1.
Qed.

Lemma spends_try_finally {A} (n1 n2 : nat) (m : M A) (fin : M unit) :
  spends R n1 m -> spends R n2 fin ->
  spends R (n1 + n2) (try_finally m fin).
Proof.
  intros Hm Hf h. unfold try_finally. pose proof (Hm h) as H1.
  destruct (m h) as [o h1]; simpl in H1. pose proof (Hf h1) as H2.
  destruct (fin h1) as [[[]|e] h2]; simpl in *;
    eapply R_trans; eassumption.
Qed.

(** *** What one request spends, from what each request of the host
    spends *)

Variable w : world.
Variables k_mkdtemp k_write k_spawn k_compile k_run k_rmtree : nat.
Hypothesis R_mkdtemp : spends R k_mkdtemp (do_mkdtemp w).
Hypothesis R_write :
  forall path content, spends R k_write (do_write w path content).
Hypothesis R_spawn : forall cmd cwd, spends R k_spawn (spawn w cmd cwd).
Hypothesis R_compile :
  forall p input,
    spends R k_compile (wait_for_communicate p input compile_timeout).
Hypothesis R_run :
  forall p input, spends R k_run (wait_for_communicate p input run_timeout).
Hypothesis R_rmtree :
  forall d, mkdtemp w = inr d -> spends R k_rmtree (do_rmtree w d).

Lemma compile_step_spends config language d source_file :
  spends R (k_spawn + k_compile)
    (compile_step w config language d source_file).
Proof.
  unfold compile_step.
  destruct (compile config) as [[|c cc]|];
    try (apply (spends_more 0); [lia|apply spends_ret]).
  apply (spends_more (k_spawn + (k_compile + 0) + 0)); [lia|].
  apply spends_try_except.
  - apply spends_bind; [apply R_spawn|]. intros p.
    apply spends_bind; [apply R_compile|]. intros [[out err] rc].
    destruct (rc =? 0)%Z; [apply spends_ret|].
    apply (spends_bind 0 0); [apply spends_lift|]. intros co.
    apply spends_ret.
  - intros [] k; try discriminate. intros [= <-].
    apply (spends_bind 0 0);
      [first [apply spends_lift | apply spends_ret]|]. intros compiler.
    apply spends_ret.
Qed.

Lemma run_step_spends config language d source_file stdin :
  spends R (k_spawn + k_run)
    (run_step w config language d source_file stdin).
Proof.
  unfold run_step.
  apply (spends_more (k_spawn + (0 + (k_run + (0 + (0 + 0)))) + 0)); [lia|].
  apply spends_try_except.
  - apply spends_bind; [apply R_spawn|]. intros p.
    apply spends_bind; [apply spends_lift|]. intros input.
    apply spends_bind; [apply R_run|]. intros [[out err] rc].
    apply spends_bind; [apply spends_lift|]. intros so.
    apply spends_bind; [apply spends_lift|]. intros se.
    apply spends_ret.
  - intros [] k; try discriminate. intros [= <-].
    apply (spends_bind 0 0);
      [first [apply spends_lift | apply spends_ret]|]. intros runtime.
    apply spends_ret.
Qed.

Lemma execute_code_spends source_code language stdin expected_output
    time_limit memory_limit :
  spends R
    (k_mkdtemp + (k_write + (k_spawn + k_compile) + (k_spawn + k_run))
       + k_rmtree)
    (execute_code w source_code language stdin expected_output time_limit
       memory_limit).
Proof.
  unfold execute_code. destruct (LANGUAGE_MAP !! language);
    [|apply (spends_more 0); [lia|apply spends_ret]].
  unfold _fallback_execute.
  destruct (lang_config (sys_executable w) !! language) as [config|];
    [|apply (spends_more 0); [lia|apply spends_ret]].
  apply (spends_more
           (k_mkdtemp
            + ((k_write + ((k_spawn + k_compile) + (k_spawn + k_run)) + 0)
               + k_rmtree))); [lia|].
  apply (spends_bind_of (fun d => mkdtemp w = inr d)); [apply R_mkdtemp| |].
  - intros h d h' E. unfold do_mkdtemp in E.
    destruct (mkdtemp w); [discriminate|]. congruence.
  - intros d Hd. apply spends_try_finally;
      [|apply spends_swallow, R_rmtree, Hd].
    apply spends_try_except.
    + unfold attempt. apply spends_bind; [apply R_write|]. intros _.
      apply spends_bind; [apply compile_step_spends|].
      intros [r|]; [apply (spends_more 0); [lia|apply spends_ret]|].
      apply run_step_spends.
    + intros [] k; simpl; try discriminate; intros [= <-]; apply spends_ret.
Qed.

Lemma check_loop_spends source_code language time_limit test_cases :
  forall i acc n,
    spends R
      (length test_cases
       * (k_mkdtemp + (k_write + (k_spawn + k_compile) + (k_spawn + k_run))
       + k_rmtree))
      (check_loop w source_code language time_limit i test_cases acc n).
Proof.
  induction test_cases as [|tc rest IH]; intros i acc n; cbn [check_loop].
  - apply spends_ret.
  - cbn [length Nat.mul]. apply spends_bind; [apply execute_code_spends|].
    intros r. apply IH.
Qed.

Lemma check_solution_spends source_code language test_cases time_limit :
  spends R
    (length test_cases
     * (k_mkdtemp + (k_write + (k_spawn + k_compile) + (k_spawn + k_run))
       + k_rmtree))
    (check_solution w source_code language test_cases time_limit).
Proof.
  unfold check_solution.
  eapply spends_more; [|eapply spends_bind;
    [apply check_loop_spends|intros [rs n]; apply spends_ret]]. lia.
Qed.

End Spends.

(** ** Time spent waiting *)

Lemma within_seconds_refl h : within_seconds 0 h h.
Proof.
  unfold within_seconds. change (inject_Z (Z.of_nat 0)) with 0%Q. lra.
Qed.

Lemma within_seconds_trans n1 n2 h h1 h2 :
  within_seconds n1 h h1 -> within_seconds n2 h1 h2 ->
  within_seconds (n1 + n2) h h2.
Proof.
  unfold within_seconds. rewrite Nat2Z.inj_add, inject_Z_plus. lra.
Qed.

Lemma within_seconds_mono n n' h h' :
  (n <= n')%nat -> within_seconds n h h' -> within_seconds n' h h'.
Proof.
  unfold within_seconds. intros Hle H.
  assert (inject_Z (Z.of_nat n) <= inject_Z (Z.of_nat n'))%Q.
  { rewrite <- Zle_Qle. lia. }
  lra.
Qed.

Lemma seconds_mkdtemp w : spends within_seconds 0 (do_mkdtemp w).
Proof.
  intros h. unfold do_mkdtemp, within_seconds.
  change (inject_Z (Z.of_nat 0)) with 0%Q.
  destruct (mkdtemp w); simpl; lra.
Qed.

Lemma seconds_write w path content :
  spends within_seconds 0 (do_write w path content).
Proof.
  intros h. unfold do_write, within_seconds.
  change (inject_Z (Z.of_nat 0)) with 0%Q.
  destruct (write_file w path content); simpl; lra.
Qed.

Lemma seconds_spawn w cmd cwd : spends within_seconds 0 (spawn w cmd cwd).
Proof.
  intros h. unfold spawn, within_seconds.
  change (inject_Z (Z.of_nat 0)) with 0%Q.
  destruct (create_subprocess_exec w cmd cwd); simpl; lra.
Qed.

Lemma seconds_rmtree w dir : spends within_seconds 0 (do_rmtree w dir).
Proof.
  intros h. unfold do_rmtree, within_seconds.
  change (inject_Z (Z.of_nat 0)) with 0%Q.
  destruct (rmtree w dir); simpl; lra.
Qed.

Lemma seconds_wait p input (n : nat) :
  spends within_seconds n
    (wait_for_communicate p input (inject_Z (Z.of_nat n))).
Proof.
  intros h. unfold wait_for_communicate, within_seconds.
  destruct (behave p input) as [t out err rc|]; simpl; [|lra].
  destruct (Qle_bool t (inject_Z (Z.of_nat n))) eqn:E; simpl; [|lra].
  apply Qle_bool_iff in E. lra.
Qed.

(** X1.  A request waits for its children for at most 35 seconds in all: 30
    for the compiler and 5 for the program. *)
Theorem request_waits_at_most w source_code language stdin expected_output
    time_limit memory_limit h :
  (waited (snd (execute_code w source_code language stdin expected_output
                  time_limit memory_limit h))
   <= waited h + 35)%Q.
Proof.
  exact (execute_code_spends within_seconds within_seconds_refl
           within_seconds_trans within_seconds_mono w 0 0 0 30 5 0
           (seconds_mkdtemp w) (seconds_write w) (seconds_spawn w)
           (fun p input => seconds_wait p input 30)
           (fun p input => seconds_wait p input 5)
           (fun d _ => seconds_rmtree w d)
           source_code language stdin expected_output time_limit
           memory_limit h).
Qed.

(** X2.  [check_solution] waits for at most 35 seconds for each test case. *)
Theorem check_solution_waits_at_most w source_code language test_cases
    time_limit h :
  (waited (snd (check_solution w source_code language test_cases time_limit
                  h))
   <= waited h + inject_Z (Z.of_nat (length test_cases * 35)))%Q.
Proof.
  exact (check_solution_spends within_seconds within_seconds_refl
           within_seconds_trans within_seconds_mono w 0 0 0 30 5 0
           (seconds_mkdtemp w) (seconds_write w) (seconds_spawn w)
           (fun p input => seconds_wait p input 30)
           (fun p input => seconds_wait p input 5)
           (fun d _ => seconds_rmtree w d)
           source_code language test_cases time_limit h).
Qed.

(** ** Processes started *)

Lemma within_processes_refl h : within_processes 0 h h.
Proof. exists []. split; [reflexivity|simpl; lia]. Qed.

Lemma execs_app l1 l2 : execs (l1 ++ l2) = (execs l1 + execs l2)%nat.
Proof.
  induction l1 as [|a l1 IH]; [reflexivity|].
  destruct a; simpl; rewrite IH; reflexivity.
Qed.

Lemma within_processes_trans n1 n2 h h1 h2 :
  within_processes n1 h h1 -> within_processes n2 h1 h2 ->
  within_processes (n1 + n2) h h2.
Proof.
  intros (l1 & E1 & L1) (l2 & E2 & L2). exists (l2 ++ l1).
  rewrite E2, E1, app_assoc. split; [reflexivity|].
  rewrite execs_app. lia.
Qed.

Lemma within_processes_mono n n' h h' :
  (n <= n')%nat -> within_processes n h h' -> within_processes n' h h'.
Proof. intros Hle (l & E & L). exists l. split; [exact E|lia]. Qed.

Lemma within_processes_one {A} (m : M A) (a : action) :
  (forall h, log (snd (m h)) = a :: log h) ->
  spends within_processes (execs [a]) m.
Proof. intros Hm h. exists [a]. split; [apply Hm|reflexivity]. Qed.

Lemma processes_mkdtemp w : spends within_processes 0 (do_mkdtemp w).
Proof.
  apply (within_processes_one _ Mkdtemp). intros h. unfold do_mkdtemp.
  destruct (mkdtemp w); reflexivity.
Qed.

Lemma processes_write w path content :
  spends within_processes 0 (do_write w path content).
Proof.
  apply (within_processes_one _ (WriteFile path content)). intros h.
  unfold do_write. destruct (write_file w path content); reflexivity.
Qed.

Lemma processes_spawn w cmd cwd :
  spends within_processes 1 (spawn w cmd cwd).
Proof.
  apply (within_processes_one _ (Exec cmd cwd)). intros h. unfold spawn.
  destruct (create_subprocess_exec w cmd cwd); reflexivity.
Qed.

Lemma processes_wait p input timeout :
  spends within_processes 0 (wait_for_communicate p input timeout).
Proof.
  apply (within_processes_one _ (Communicate (pid p) input timeout)).
  intros h. unfold wait_for_communicate.
  destruct (behave p input) as [t out err rc|]; [|reflexivity].
  destruct (Qle_bool t timeout); reflexivity.
Qed.

Lemma processes_rmtree w dir : spends within_processes 0 (do_rmtree w dir).
Proof.
  apply (within_processes_one _ (Rmtree dir)). intros h. unfold do_rmtree.
  destruct (rmtree w dir); reflexivity.
Qed.

(** X3.  A request starts at most two processes, the compiler and the
    program. *)
Theorem request_starts_at_most_two w source_code language stdin
    expected_output time_limit memory_limit h :
  exists new,
    log (snd (execute_code w source_code language stdin expected_output
                time_limit memory_limit h)) = new ++ log h
    /\ (execs new <= 2)%nat.
Proof.
  exact (execute_code_spends within_processes within_processes_refl
           within_processes_trans within_processes_mono w 0 0 1 0 0 0
           (processes_mkdtemp w) (processes_write w) (processes_spawn w)
           (fun p input => processes_wait p input compile_timeout)
           (fun p input => processes_wait p input run_timeout)
           (fun d _ => processes_rmtree w d)
           source_code language stdin expected_output time_limit
           memory_limit h).
Qed.

(** ** Directories *)

Lemma same_other_dirs_refl w h : same_other_dirs w 0 h h.
Proof. intros x _. reflexivity. Qed.

Lemma same_other_dirs_trans w n1 n2 h h1 h2 :
  same_other_dirs w n1 h h1 -> same_other_dirs w n2 h1 h2 ->
  same_other_dirs w (n1 + n2) h h2.
Proof. intros H1 H2 x Hx. rewrite (H2 x Hx). apply H1, Hx. Qed.

Lemma same_other_dirs_mono w n n' h h' :
  (n <= n')%nat -> same_other_dirs w n h h' -> same_other_dirs w n' h h'.
Proof. intros _ H. exact H. Qed.

Lemma dirs_mkdtemp w : spends (same_other_dirs w) 0 (do_mkdtemp w).
Proof.
  intros h x Hx. unfold do_mkdtemp. destruct (mkdtemp w) as [e|d]; simpl;
    [reflexivity|].
  rewrite elem_of_union, elem_of_singleton. split; [|tauto].
  intros [->|H]; [|exact H]. congruence.
Qed.

Lemma dirs_write w path content :
  spends (same_other_dirs w) 0 (do_write w path content).
Proof.
  intros h x _. unfold do_write.
  destruct (write_file w path content); reflexivity.
Qed.

Lemma dirs_spawn w cmd cwd : spends (same_other_dirs w) 0 (spawn w cmd cwd).
Proof.
  intros h x _. unfold spawn.
  destruct (create_subprocess_exec w cmd cwd); reflexivity.
Qed.

Lemma dirs_wait w p input timeout :
  spends (same_other_dirs w) 0 (wait_for_communicate p input timeout).
Proof.
  intros h x _. unfold wait_for_communicate.
  destruct (behave p input) as [t out err rc|]; [|reflexivity].
  destruct (Qle_bool t timeout); reflexivity.
Qed.

Lemma dirs_rmtree w d :
  mkdtemp w = inr d -> spends (same_other_dirs w) 0 (do_rmtree w d).
Proof.
  intros Hd h x Hx. unfold do_rmtree. destruct (rmtree w d); simpl;
    [reflexivity|].
  rewrite elem_of_difference, elem_of_singleton. split; [tauto|].
  intros H. split; [exact H|]. congruence.
Qed.

Lemma execute_code_other_dirs w source_code language stdin expected_output
    time_limit memory_limit h :
  same_other_dirs w 0 h
    (snd (execute_code w source_code language stdin expected_output
            time_limit memory_limit h)).
Proof.
  exact (execute_code_spends (same_other_dirs w) (same_other_dirs_refl w)
           (same_other_dirs_trans w) (same_other_dirs_mono w) w 0 0 0 0 0 0
           (dirs_mkdtemp w) (dirs_write w) (dirs_spawn w)
           (fun p input => dirs_wait w p input compile_timeout)
           (fun p input => dirs_wait w p input run_timeout)
           (dirs_rmtree w)
           source_code language stdin expected_output time_limit
           memory_limit h).
Qed.

Lemma execute_code_dirs_restored w source_code language stdin
    expected_output time_limit memory_limit h :
  (forall d, mkdtemp w = inr d -> (d ∉ dirs h) /\ rmtree w d = None) ->
  dirs (snd (execute_code w source_code language stdin expected_output
               time_limit memory_limit h)) = dirs h.
Proof.
  intros Hd. apply set_eq. intros x.
  assert (Hdec : mkdtemp w = inr x \/ mkdtemp w <> inr x).
  { destruct (mkdtemp w) as [e|d]; [right; discriminate|].
    destruct (decide (d = x)) as [->|Hne]; [left; reflexivity|].
    right. congruence. }
  destruct Hdec as [Ex|Nx].
  - destruct (Hd x Ex) as [Hfresh Hrm]. split; [|intros H; contradiction].
    intros Hx. exfalso. revert Hx.
    destruct (lang_config (sys_executable w) !! language) as [config|] eqn:El.
    + rewrite (execute_code_known _ _ _ _ _ _ _ _ El).
      rewrite (fallback_known _ _ _ _ _ _ _ El Ex).
      destruct (attempt _ _ _ _ _ _ _) as [[r|e] h1]; simpl;
        apply dirs_cleaned; exact Hrm.
    + apply tables_agree in El. unfold execute_code. rewrite El. simpl.
      exact Hfresh.
  - apply execute_code_other_dirs. exact Nx.
Qed.

Lemma check_loop_dirs_restored w source_code language time_limit test_cases :
  forall i acc n h,
    (forall d, mkdtemp w = inr d -> (d ∉ dirs h) /\ rmtree w d = None) ->
    dirs (snd (check_loop w source_code language time_limit i test_cases
                 acc n h)) = dirs h.
Proof.
  induction test_cases as [|tc rest IH]; intros i acc n h Hd;
    cbn [check_loop]; [reflexivity|].
  unfold bind at 1.
  pose proof (execute_code_dirs_restored w source_code language
                (Some (get_or_empty (tc_input tc))) (tc_expected_output tc)
                time_limit default_memory_limit h Hd) as E.
  destruct (execute_code _ _ _ _ _ _ _ h) as [[r|e] h1]; simpl in E;
    [|exact E].
  rewrite IH; [exact E|]. intros d Hm. rewrite E. apply Hd, Hm.
Qed.

(** X4.  When the name that [tempfile.mkdtemp] gives is new and the deletion
    succeeds, [check_solution] leaves the directories of the host as it
    found them, whatever the number of test cases and however each run ends. *)
Theorem check_solution_restores_directories w source_code language
    test_cases time_limit h :
  (forall d, mkdtemp w = inr d -> (d ∉ dirs h) /\ rmtree w d = None) ->
  dirs (snd (check_solution w source_code language test_cases time_limit h))
  = dirs h.
Proof.
  intros Hd. unfold check_solution, bind.
  pose proof (check_loop_dirs_restored w source_code language time_limit
                test_cases 0 [] 0 h Hd) as E.
  destruct (check_loop _ _ _ _ _ _ _ _ h) as [[[rs n]|e] h1]; exact E.
Qed.

Lemma check_solution_restores_directories_hello :
  dirs (snd (check_solution hello (lit "print('hello')") (lit "python")
               [ expecting (lit "hello"); expecting (lit "bye") ]
               default_time_limit idle))
  = dirs idle.
Proof.
  apply (check_solution_restores_directories hello (lit "print('hello')")
           (lit "python") [ expecting (lit "hello"); expecting (lit "bye") ]
           default_time_limit idle).
  intros d [= <-]. split; [apply not_elem_of_empty|reflexivity].
Defined.

(** ** The shape of every result *)

Lemma compile_message_nonempty w b co :
  compile_message w b = inr co -> co <> [].
Proof.
  unfold compile_message, py_decode. destruct b as [|x b].
  - intros [= <-]. discriminate.
  - change (truthy (x :: b)) with true. cbv iota.
    destruct (decode (x :: b)) as [s|] eqn:E; [|discriminate].
    intros [= <-]. exact (decode_nonempty _ _ _ E).
Qed.

Lemma app_lit_nonempty (a b c : pystr) : c <> [] -> a ++ c ++ b <> [].
Proof. destruct a, c; simpl; congruence. Qed.

Ltac listed :=
  repeat first [ apply list_elem_of_here | apply list_elem_of_further ].

Lemma compile_step_shaped w config language d source_file :
  yields (fun o => forall r, o = Some r -> shaped r)
    (compile_step w config language d source_file).
Proof.
  unfold compile_step.
  destruct (compile config) as [[|c cc]|];
    try (apply yields_ret; discriminate).
  apply yields_try_except.
  - apply yields_bind. intros p. apply yields_bind. intros [[out err] rc].
    destruct (rc =? 0)%Z eqn:Erc; [apply yields_ret; discriminate|].
    apply (yields_bind_of _ (fun co => co <> [])).
    + apply yields_lift. intros co. apply compile_message_nonempty.
    + intros co Hco. apply yields_ret. intros r [= <-].
      apply shaped_compile; [exact Hco|]. apply Z.eqb_neq, Erc.
  - intros [] k; try discriminate. intros [= <-].
    simpl. change (yields (fun o => forall r, o = Some r -> shaped r)
      (ret (Some (failure (lit "Compiler Not Found") (-1)
                    (c ++ lit " not found. Please install " ++ c
                     ++ lit " to run " ++ language
                     ++ lit " code locally."))))).
    apply yields_ret. intros r [= <-].
    apply shaped_failure; [listed|].
    apply (app_lit_nonempty c _ (lit " not found. Please install ")).
    discriminate.
Qed.

Lemma run_step_shaped w config language d source_file stdin :
  yields shaped (run_step w config language d source_file stdin).
Proof.
  unfold run_step. apply yields_try_except.
  - apply yields_bind. intros p. apply yields_bind. intros input.
    apply yields_bind. intros [[out err] rc].
    apply (yields_bind_of _ (fun so => so <> Some [])).
    { apply yields_lift. intros so. apply decode_or_none_nonempty. }
    intros so Hso.
    apply (yields_bind_of _ (fun se => se <> Some [])).
    { apply yields_lift. intros se. apply decode_or_none_nonempty. }
    intros se Hse. apply yields_ret. apply shaped_run; assumption.
  - intros [] k; try discriminate. intros [= <-].
    apply (yields_bind_of _ (fun _ => True)); [intros ? ? ? _; exact I|].
    intros runtime _. apply yields_ret.
    apply shaped_failure; [listed|].
    apply (app_lit_nonempty runtime _
             (lit " not found. Please install it to run ")).
    discriminate.
Qed.

(** Every result of [execute_code] has one of the three shapes. *)
Lemma execute_code_shaped w source_code language stdin expected_output
    time_limit memory_limit :
  yields shaped
    (execute_code w source_code language stdin expected_output time_limit
       memory_limit).
Proof.
  unfold execute_code. destruct (LANGUAGE_MAP !! language) eqn:El.
  2:{ apply yields_ret. apply shaped_failure; [listed|discriminate]. }
  unfold _fallback_execute.
  destruct (lang_config (sys_executable w) !! language) as [config|] eqn:Ec.
  2:{ rewrite <- tables_agree in Ec. congruence. }
  apply yields_bind. intros d. apply yields_try_finally.
  apply yields_try_except.
  - unfold attempt. apply yields_bind. intros _.
    apply (yields_bind_of _ (fun o => forall r, o = Some r -> shaped r));
      [apply compile_step_shaped|].
    intros [r|] Hr; [apply yields_ret, Hr; reflexivity|].
    apply run_step_shaped.
  - intros [] k; simpl; try discriminate; intros [= <-]; apply yields_ret;
      (apply shaped_failure; [listed|discriminate]).
Qed.

Ltac one_of H :=
  repeat (apply elem_of_cons in H as [H|H]; [injection H as -> ->|]);
  [..|apply elem_of_nil in H; contradiction].

Ltac differ := let H := fresh in intros H; vm_compute in H; discriminate H.

Lemma shaped_measurement r : shaped r -> time r = None /\ memory r = None.
Proof. intros []; split; reflexivity. Qed.

Lemma shaped_accepted r :
  shaped r ->
  (status_id r = 3%Z <-> status r = lit "Accepted")
  /\ (status_id r = 3%Z <-> exit_code r = Some 0%Z).
Proof.
  intros [so se rc Hso Hse|co rc Hco Hrc|s i e Hin He]; simpl.
  - destruct (rc =? 0)%Z eqn:E.
    + apply Z.eqb_eq in E as ->. repeat split; reflexivity.
    + apply Z.eqb_neq in E. repeat split; try differ.
      intros [= ->]. contradiction.
  - repeat split; try differ. intros [= ->]. contradiction.
  - one_of Hin; repeat split; differ.
Qed.

Lemma shaped_status r :
  shaped r ->
  (status r, status_id r) ∈
    [ (lit "Accepted", 3%Z); (lit "Runtime Error", 11%Z);
      (lit "Compilation Error", 6%Z); (lit "Time Limit Exceeded", 5%Z);
      (lit "Compiler Not Found", (-1)%Z); (lit "Runtime Not Found", (-1)%Z);
      (lit "Error", (-1)%Z) ].
Proof.
  intros [so se rc Hso Hse|co rc Hco Hrc|s i e Hin He]; simpl.
  - destruct (rc =? 0)%Z; listed.
  - listed.
  - one_of Hin; listed.
Qed.

Lemma shaped_fields r :
  shaped r ->
  (stdout r <> None -> status_id r = 3%Z \/ status_id r = 11%Z)
  /\ (compile_output r <> None <-> status_id r = 6%Z)
  /\ (status_id r = 6%Z -> stdout r = None /\ stderr r = None)
  /\ (exit_code r = None <-> status_id r = 5%Z \/ status_id r = (-1)%Z)
  /\ (exit_code r = None -> exists e, stderr r = Some e /\ e <> [])
  /\ stdout r <> Some [] /\ stderr r <> Some [].
Proof.
  intros [so se rc Hso Hse|co rc Hco Hrc|s i e Hin He]; simpl.
  - split; [intros _; destruct (rc =? 0)%Z; auto|].
    split; [split; [congruence|destruct (rc =? 0)%Z; discriminate]|].
    split; [destruct (rc =? 0)%Z; discriminate|].
    split; [split; [discriminate|destruct (rc =? 0)%Z; intros [|]; discriminate]|].
    split; [discriminate|]. split; assumption.
  - split; [congruence|]. split; [split; [reflexivity|discriminate]|].
    split; [split; reflexivity|].
    split; [split; [discriminate|intros [|]; discriminate]|].
    split; [discriminate|]. split; discriminate.
  - split; [congruence|].
    split; [split; [congruence|one_of Hin; discriminate]|].
    split; [one_of Hin; discriminate|].
    split; [split; [intros _; one_of Hin; auto|reflexivity]|].
    split; [intros _; exists e; split; [reflexivity|exact He]|].
    split; [discriminate|]. intros [= ->]. contradiction.
Qed.

(** X5.  No result of [execute_code] carries a time or a memory measurement. *)
Theorem results_carry_no_measurement w source_code language stdin
    expected_output time_limit memory_limit h r h' :
  execute_code w source_code language stdin expected_output time_limit
    memory_limit h = (Returned r, h') ->
  time r = None /\ memory r = None.
Proof. intros E. exact (shaped_measurement r (execute_code_shaped _ _ _ _ _ _ _ _ _ _ E)). Qed.

Lemma results_carry_no_measurement_hello :
  time (accepted (lit "hello
")) = None /\ memory (accepted (lit "hello
")) = None.
Proof.
  apply (results_carry_no_measurement hello (lit "print('hello')")
           (lit "python") None None default_time_limit default_memory_limit
           idle (accepted (lit "hello
"))
           (snd (execute_code hello (lit "print('hello')") (lit "python")
                   None None default_time_limit default_memory_limit idle))).
  vm_compute. reflexivity.
Defined.

(** X6.  For every result of [execute_code], the status id is 3 exactly when
    the status is ["Accepted"], and exactly when the exit code is 0. *)
Theorem accepted_means_exit_code_zero w source_code language stdin
    expected_output time_limit memory_limit h r h' :
  execute_code w source_code language stdin expected_output time_limit
    memory_limit h = (Returned r, h') ->
  (status_id r = 3%Z <-> status r = lit "Accepted")
  /\ (status_id r = 3%Z <-> exit_code r = Some 0%Z).
Proof. intros E. exact (shaped_accepted r (execute_code_shaped _ _ _ _ _ _ _ _ _ _ E)). Qed.

Lemma accepted_means_exit_code_zero_hello :
  (status_id (accepted (lit "hello
")) = 3%Z <-> status (accepted (lit "hello
")) = lit "Accepted")
  /\ (status_id (accepted (lit "hello
")) = 3%Z <-> exit_code (accepted (lit "hello
")) = Some 0%Z).
Proof.
  apply (accepted_means_exit_code_zero hello (lit "print('hello')")
           (lit "python") None None default_time_limit default_memory_limit
           idle (accepted (lit "hello
"))
           (snd (execute_code hello (lit "print('hello')") (lit "python")
                   None None default_time_limit default_memory_limit idle))).
  vm_compute. reflexivity.
Defined.

(** X7.  The status and the status id of every result of [execute_code] are
    one of seven pairs; the status ["Unsupported"] is not among them. *)
Theorem status_is_one_of_seven w source_code language stdin
    expected_output time_limit memory_limit h r h' :
  execute_code w source_code language stdin expected_output time_limit
    memory_limit h = (Returned r, h') ->
  (status r, status_id r) ∈
    [ (lit "Accepted", 3%Z); (lit "Runtime Error", 11%Z);
      (lit "Compilation Error", 6%Z); (lit "Time Limit Exceeded", 5%Z);
      (lit "Compiler Not Found", (-1)%Z); (lit "Runtime Not Found", (-1)%Z);
      (lit "Error", (-1)%Z) ].
Proof. intros E. exact (shaped_status r (execute_code_shaped _ _ _ _ _ _ _ _ _ _ E)). Qed.

Lemma status_is_one_of_seven_ruby :
  (lit "Error", (-1)%Z) ∈
    [ (lit "Accepted", 3%Z); (lit "Runtime Error", 11%Z);
      (lit "Compilation Error", 6%Z); (lit "Time Limit Exceeded", 5%Z);
      (lit "Compiler Not Found", (-1)%Z); (lit "Runtime Not Found", (-1)%Z);
      (lit "Error", (-1)%Z) ].
Proof.
  apply (status_is_one_of_seven hello (lit "puts 1") (lit "ruby") None None
           default_time_limit default_memory_limit idle
           (failure (lit "Error") (-1)
              (lit "Unsupported language: " ++ lit "ruby")) idle).
  vm_compute. reflexivity.
Defined.

(** X8.  Which fields a result of [execute_code] has: [stdout] only with id
    3 or 11; [compile_output] exactly with id 6, and then neither [stdout]
    nor [stderr]; no exit code exactly with id 5 or -1, and then a [stderr]
    that is not empty. [stdout] and [stderr] are never the empty text. *)
Theorem fields_follow_verdict w source_code language stdin
    expected_output time_limit memory_limit h r h' :
  execute_code w source_code language stdin expected_output time_limit
    memory_limit h = (Returned r, h') ->
  (stdout r <> None -> status_id r = 3%Z \/ status_id r = 11%Z)
  /\ (compile_output r <> None <-> status_id r = 6%Z)
  /\ (status_id r = 6%Z -> stdout r = None /\ stderr r = None)
  /\ (exit_code r = None <-> status_id r = 5%Z \/ status_id r = (-1)%Z)
  /\ (exit_code r = None -> exists e, stderr r = Some e /\ e <> [])
  /\ stdout r <> Some [] /\ stderr r <> Some [].
Proof. intros E. exact (shaped_fields r (execute_code_shaped _ _ _ _ _ _ _ _ _ _ E)). Qed.

(** ** The other ways out of a request *)

(** X9.  When the compiler cannot be started because its executable is not
    found, the result is ["Compiler Not Found"] with id -1 and a message
    that names the compiler; the program is not started, and the directory
    is deleted as usual. *)
Theorem compiler_not_found_verdict w source_code language stdin
    expected_output time_limit memory_limit h config c cc d m :
  lang_config (sys_executable w) !! language = Some config ->
  compile config = Some (c :: cc) ->
  mkdtemp w = inr d ->
  write_file w (source_path config language d) source_code = None ->
  create_subprocess_exec w
    (compile_command (c :: cc) language d (source_path config language d)) d
    = inl (FileNotFoundError m) ->
  exists h',
    execute_code w source_code language stdin expected_output time_limit
      memory_limit h =
      (Returned (failure (lit "Compiler Not Found") (-1)
                   (c ++ lit " not found. Please install " ++ c
                    ++ lit " to run " ++ language ++ lit " code locally.")),
       h')
    /\ log h' =
       Rmtree d
       :: Exec (compile_command (c :: cc) language d
                  (source_path config language d)) d
       :: WriteFile (source_path config language d) source_code
       :: Mkdtemp :: log h.
Proof.
  intros Hl Hc Hd Hw Hs.
  rewrite (execute_code_known _ _ _ _ _ _ _ _ Hl).
  rewrite (fallback_known _ _ _ _ _ _ _ Hl Hd).
  unfold attempt, bind at 1, do_write. rewrite Hw.
  unfold bind, compile_step. rewrite Hc.
  unfold try_except, bind, spawn. rewrite Hs. simpl.
  eexists. split; [reflexivity|].
  unfold cleaned, do_rmtree, do_mkdtemp. rewrite Hd.
  destruct (rmtree w d); reflexivity.
Qed.

(** X10.  When the compiler does not exit within 30 seconds, the result is
    ["Time Limit Exceeded"] with id 5 and the message of the run deadline,
    ["Execution timed out (5 second limit)"]; the program is not started,
    and the compiler is still a child of the host when the call returns. *)
Theorem compile_timeout_verdict w source_code language stdin
    expected_output time_limit memory_limit h config c cc d p :
  lang_config (sys_executable w) !! language = Some config ->
  compile config = Some (c :: cc) ->
  mkdtemp w = inr d ->
  write_file w (source_path config language d) source_code = None ->
  create_subprocess_exec w
    (compile_command (c :: cc) language d (source_path config language d)) d
    = inr p ->
  overruns (behave p None) compile_timeout ->
  exists h',
    execute_code w source_code language stdin expected_output time_limit
      memory_limit h =
      (Returned (failure (lit "Time Limit Exceeded") 5
                   (lit "Execution timed out (5 second limit)")), h')
    /\ pid p ∈ children h'
    /\ waited h' = (waited h + compile_timeout)%Q
    /\ log h' =
       Rmtree d :: Communicate (pid p) None compile_timeout
       :: Exec (compile_command (c :: cc) language d
                  (source_path config language d)) d
       :: WriteFile (source_path config language d) source_code
       :: Mkdtemp :: log h.
Proof.
  intros Hl Hc Hd Hw Hs Ho.
  rewrite (execute_code_known _ _ _ _ _ _ _ _ Hl).
  rewrite (fallback_known _ _ _ _ _ _ _ Hl Hd).
  unfold attempt, bind at 1, do_write. rewrite Hw.
  unfold bind, compile_step. rewrite Hc.
  unfold try_except, bind, spawn. rewrite Hs. simpl.
  rewrite (wait_overrun _ _ _ _ Ho). simpl.
  eexists. split; [reflexivity|].
  unfold cleaned, do_rmtree, do_mkdtemp. rewrite Hd.
  destruct (rmtree w d); simpl;
    (split; [rewrite ?elem_of_difference, !elem_of_union, elem_of_singleton;
             tauto
            |split; reflexivity]).
Qed.

(** The command of the program is never empty. *)
Lemma run_command_first config language d source_file :
  exists runtime rest,
    run_command config language d source_file = runtime :: rest.
Proof.
  unfold run_command. destruct (decide _); [eauto|].
  destruct (decide _); [eauto|].
  destruct (run config) as [|x l]; simpl; eauto.
Qed.

(** X11.  When the program cannot be started because its executable is not
    found, the result is ["Runtime Not Found"] with id -1 and a message that
    names the first word of the command. *)
Theorem runtime_not_found_verdict w source_code language stdin
    expected_output time_limit memory_limit h config d h2 m :
  reaches_run w source_code language h config d h2 ->
  create_subprocess_exec w
    (run_command config language d (source_path config language d)) d
    = inl (FileNotFoundError m) ->
  exists runtime rest h',
    run_command config language d (source_path config language d)
      = runtime :: rest
    /\ execute_code w source_code language stdin expected_output time_limit
         memory_limit h =
       (Returned (failure (lit "Runtime Not Found") (-1)
                    (runtime ++ lit " not found. Please install it to run "
                     ++ language ++ lit " code locally.")), h')
    /\ log h' =
       Rmtree d
       :: Exec (run_command config language d
                  (source_path config language d)) d
       :: log h2.
Proof.
  intros Hr Hs.
  destruct (run_command_first config language d
              (source_path config language d)) as (runtime & rest & Ec).
  exists runtime, rest.
  rewrite (execute_code_run_step _ _ _ _ _ _ _ _ _ _ _ Hr).
  unfold run_step, try_except, bind, spawn. rewrite Hs. simpl.
  rewrite Ec. simpl. eexists. split; [reflexivity|].
  split; [reflexivity|]. apply log_cleaned.
Qed.

(** X12.  When the input of the program cannot be encoded (it has a lone
    surrogate), the program has already been started: the result is the one
    for an unexpected error, the process is never waited for and is still a
    child of the host when the call returns. *)
Theorem unencodable_stdin_abandons_process w source_code language stdin
    expected_output time_limit memory_limit h config d h2 p e :
  reaches_run w source_code language h config d h2 ->
  create_subprocess_exec w
    (run_command config language d (source_path config language d)) d
    = inr p ->
  stdin_bytes w stdin = inl e ->
  exists s h',
    stdin = Some s /\ encode s = None
    /\ execute_code w source_code language stdin expected_output time_limit
         memory_limit h =
       (Returned (failure (lit "Error") (-1)
                    (lit "Execution error: " ++ encode_error w s ++ [10%N]
                     ++ format_exc w (OtherException (encode_error w s)))),
        h')
    /\ pid p ∈ children h'
    /\ log h' =
       Rmtree d
       :: Exec (run_command config language d
                  (source_path config language d)) d
       :: log h2.
Proof.
  intros Hr Hs Hi.
  assert (Hstdin : exists s, stdin = Some s /\ encode s = None
                             /\ e = OtherException (encode_error w s)).
  { unfold stdin_bytes, py_encode in Hi. destruct stdin as [[|x s]|];
      try discriminate.
    destruct (encode (x :: s)) eqn:E; [discriminate|].
    injection Hi as <-. eauto. }
  destruct Hstdin as (s & -> & Hn & ->). exists s.
  rewrite (execute_code_run_step _ _ _ _ _ _ _ _ _ _ _ Hr).
  unfold run_step, try_except, bind, spawn. rewrite Hs, Hi. simpl.
  eexists. split; [reflexivity|]. split; [exact Hn|].
  split; [reflexivity|].
  unfold cleaned, do_rmtree. destruct (rmtree w d); simpl;
    (split; [rewrite elem_of_union, elem_of_singleton; tauto|reflexivity]).
Qed.

(** X13.  For C and C++ the program that is run is the file the compiler was
    told to write: when the compiler exits with code 0 in time, the request
    reaches the run step with the two commands [compiler -o program source]
    and [program]. *)
Theorem compiled_program_is_run w source_code language h config cc d p
    t out err :
  language = lit "c" \/ language = lit "cpp" ->
  lang_config (sys_executable w) !! language = Some config ->
  compile config = Some cc ->
  mkdtemp w = inr d ->
  write_file w (source_path config language d) source_code = None ->
  create_subprocess_exec w
    (compile_command cc language d (source_path config language d)) d
    = inr p ->
  behave p None = Exits t out err 0 ->
  (t <= compile_timeout)%Q ->
  exists compiler h2,
    compile_command cc language d (source_path config language d)
      = [ compiler; lit "-o"; path_join d (lit "program");
          path_join d (lit "code" ++ ext config) ]
    /\ run_command config language d (source_path config language d)
       = [ path_join d (lit "program") ]
    /\ reaches_run w source_code language h config d h2
    /\ log h2 =
       Communicate (pid p) None compile_timeout
       :: Exec [ compiler; lit "-o"; path_join d (lit "program");
                 path_join d (lit "code" ++ ext config) ] d
       :: WriteFile (path_join d (lit "code" ++ ext config)) source_code
       :: Mkdtemp :: log h.
Proof.
  intros Hlang Hl Hc Hd Hw Hs Hb Ht.
  assert (Hcfg : exists compiler, cc = [compiler; lit "-o"]).
  { destruct Hlang as [-> | ->]; vm_compute in Hl; injection Hl as <-;
      injection Hc as <-; eexists; reflexivity. }
  destruct Hcfg as (compiler & ->). exists compiler.
  assert (Hj : language <> lit "java").
  { destruct Hlang as [-> | ->]; intros H; vm_compute in H; discriminate H. }
  assert (Esrc : source_path config language d
                 = path_join d (lit "code" ++ ext config)).
  { unfold source_path. rewrite decide_False by exact Hj. reflexivity. }
  assert (Ecmd : compile_command [compiler; lit "-o"] language d
                   (source_path config language d)
                 = [ compiler; lit "-o"; path_join d (lit "program");
                     path_join d (lit "code" ++ ext config) ]).
  { unfold compile_command. rewrite decide_False by exact Hj.
    rewrite Esrc. reflexivity. }
  assert (Erun : run_command config language d
                   (source_path config language d)
                 = [ path_join d (lit "program") ]).
  { unfold run_command. rewrite decide_True by exact Hlang. reflexivity. }
  eexists. split; [exact Ecmd|]. split; [exact Erun|].
  split.
  - split; [exact Hl|]. eexists _, _. unfold do_mkdtemp. rewrite Hd.
    split; [reflexivity|]. unfold do_write. rewrite Hw.
    split; [reflexivity|]. unfold compile_step. rewrite Hc.
    unfold try_except, bind, spawn. rewrite Hs. simpl.
    rewrite (wait_exit _ _ _ _ _ _ _ _ Hb Ht). simpl. reflexivity.
  - simpl. rewrite Ecmd, Esrc. reflexivity.
Qed.

(** ** The report of [check_solution] *)

(** X14.  The report has one entry per test case, in the order of the test
    cases, whatever the outcome of the earlier ones: entry [k] is numbered
    [k + 1], carries the input of case [k] and its expected output without
    the white space at its ends, and the status of a result that
    [execute_code] returned for that input. *)
Theorem report_follows_test_cases w source_code language test_cases
    time_limit h report h' :
  check_solution w source_code language test_cases time_limit h
    = (Returned report, h') ->
  total report = length test_cases
  /\ length (results report) = length test_cases
  /\ forall k test_case,
       test_cases !! k = Some test_case ->
       exists c r h1 h2,
         results report !! k = Some c
         /\ execute_code w source_code language
              (Some (get_or_empty (tc_input test_case)))
              (tc_expected_output test_case) time_limit
              default_memory_limit h1 = (Returned r, h2)
         /\ r_test_case c = (k + 1)%nat
         /\ r_input c = get_or_empty (tc_input test_case)
         /\ r_expected c
            = strip (get_or_empty (tc_expected_output test_case))
         /\ r_actual c = strip (or_empty (stdout r))
         /\ r_status c = status r.
Proof.
  intros E.
  apply check_solution_returned in E as (Ht & Hlen & _ & _ & Hk).
  split; [exact Ht|]. split; [exact Hlen|].
  intros k tc Hin. destruct (Hk k tc Hin) as (r & h1 & h2 & Hex & Hlook).
  exists (judge k tc r), r, h1, h2. split; [exact Hlook|].
  split; [exact Hex|]. repeat split.
Qed.

Lemma filter_keeps_all (l : list CaseReport) :
  length (filter (fun c => r_passed c = true) l) = length l <->
  Forall (fun c => r_passed c = true) l.
Proof.
  induction l as [|c l IH].
  - split; [constructor|reflexivity].
  - rewrite filter_cons. destruct (decide (r_passed c = true)) as [Hc|Hc].
    + simpl. rewrite Forall_cons. split.
      * intros [= Hl]. split; [exact Hc|]. apply IH, Hl.
      * intros [_ Hl]. f_equal. apply IH, Hl.
    + split.
      * intros Hl. pose proof (length_filter (fun c => r_passed c = true) l).
        simpl in Hl. lia.
      * intros Hall. apply Forall_cons in Hall as [Hc' _]. contradiction.
Qed.

(** X15.  The counters of the report: [passed] is the number of entries that
    passed, it is at most [total], and [all_passed] holds exactly when every
    entry passed. *)
Theorem report_counters w source_code language test_cases time_limit h
    report h' :
  check_solution w source_code language test_cases time_limit h
    = (Returned report, h') ->
  passed report
  = length (filter (fun c => r_passed c = true) (results report))
  /\ (passed report <= total report)%nat
  /\ (all_passed report = true <->
      Forall (fun c => r_passed c = true) (results report)).
Proof.
  intros E.
  apply check_solution_returned in E as (Ht & Hlen & Hp & Ha & _).
  split; [exact Hp|].
  assert (Hle : (passed report <= total report)%nat).
  { rewrite Hp, Ht, <- Hlen. apply length_filter. }
  split; [exact Hle|].
  rewrite Ha, Nat.eqb_eq, Hp, Ht, <- Hlen. split.
  - apply filter_keeps_all.
  - apply filter_keeps_all.
Qed.

(** X16.  In every entry of a report the recorded outputs have no white
    space at their ends, and the entry passed exactly when they are the same
    text. *)
Theorem report_entries_are_trimmed w source_code language test_cases
    time_limit h report h' c :
  check_solution w source_code language test_cases time_limit h
    = (Returned report, h') ->
  c ∈ results report ->
  trimmed (r_actual c) /\ trimmed (r_expected c)
  /\ (r_passed c = true <-> r_actual c = r_expected c).
Proof.
  intros E Hc.
  apply check_solution_returned in E as (_ & Hlen & _ & _ & Hk).
  apply list_elem_of_lookup in Hc as (k & Hlook).
  assert (Hlt : (k < length test_cases)%nat).
  { rewrite <- Hlen. apply lookup_lt_Some in Hlook. exact Hlook. }
  destruct (lookup_lt_is_Some_2 test_cases k Hlt) as (tc & Htc).
  destruct (Hk k tc Htc) as (r & h1 & h2 & _ & Hj).
  rewrite Hlook in Hj. injection Hj as ->. simpl.
  split; [|split].
  - destruct (strip_decompose (or_empty (stdout r))) as (_ & _ & _ & _ & _ & H).
    exact H.
  - destruct (strip_decompose (get_or_empty (tc_expected_output tc)))
      as (_ & _ & _ & _ & _ & H). exact H.
  - apply bool_decide_eq_true.
Qed.

(** X17.  With no test case the report says that all passed, and nothing is
    asked of the host; and this is the only list of test cases for which a
    report says that all passed when none did. *)
Theorem no_test_case_all_passed w source_code language time_limit h :
  check_solution w source_code language [] time_limit h
  = (Returned {| passed := 0; total := 0; all_passed := true;
                 results := [] |}, h)
  /\ forall test_cases report h',
       check_solution w source_code language test_cases time_limit h
         = (Returned report, h') ->
       all_passed report = true -> passed report = 0%nat ->
       test_cases = [].
Proof.
  split; [reflexivity|].
  intros test_cases report h' E Hall Hnone.
  apply check_solution_returned in E as (Ht & _ & _ & Ha & _).
  rewrite Ha, Nat.eqb_eq, Hnone, Ht in Hall.
  symmetry in Hall. apply nil_length_inv in Hall. exact Hall.
Qed.

Lemma check_loop_unsupported w source_code language time_limit test_cases :
  language ∉ supported_languages ->
  forall i acc n h,
    exists n',
      check_loop w source_code language time_limit i test_cases acc n h
      = (Returned
           (rev acc
            ++ imap (fun k tc =>
                       judge (i + k) tc
                         (failure (lit "Error") (-1)
                            (lit "Unsupported language: " ++ language)))
                 test_cases,
            n'), h).
Proof.
  intros Hn. apply LANGUAGE_MAP_keys in Hn.
  remember (failure (lit "Error") (-1)
              (lit "Unsupported language: " ++ language)) as F eqn:EF.
  induction test_cases as [|tc rest IH]; intros i acc n h; cbn [check_loop].
  - eexists. unfold ret. cbn [imap]. rewrite app_nil_r. reflexivity.
  - unfold bind at 1. unfold execute_code at 1. rewrite Hn, <- EF.
    unfold ret at 1. cbv iota beta.
    edestruct IH as (n' & E). rewrite E. exists n'.
    rewrite imap_cons. cbn [rev]. rewrite <- app_assoc, Nat.add_0_r.
    do 3 f_equal. cbn [app]. f_equal; [].
    f_equal.
    apply imap_ext. intros k x _. unfold compose.
    rewrite Nat.add_succ_r. reflexivity.
Qed.

(** X18.  For a language that is not supported [check_solution] returns a
    report all the same, without asking anything of the host: every entry
    has status ["Error"], the message about the language as its error and
    the empty text as actual output, and passes exactly when the expected
    output of its case is white space only. *)
Theorem unsupported_language_report w source_code language test_cases
    time_limit h :
  language ∉ supported_languages ->
  exists report,
    check_solution w source_code language test_cases time_limit h
    = (Returned report, h)
    /\ length (results report) = length test_cases
    /\ forall k test_case,
         test_cases !! k = Some test_case ->
         exists c,
           results report !! k = Some c
           /\ r_status c = lit "Error"
           /\ r_error c = Some (lit "Unsupported language: " ++ language)
           /\ r_actual c = []
           /\ (r_passed c = true <->
               blank (get_or_empty (tc_expected_output test_case))).
Proof.
  intros Hn. unfold check_solution, bind.
  destruct (check_loop_unsupported w source_code language time_limit
              test_cases Hn 0 [] 0 h) as (n' & ->).
  eexists. split; [reflexivity|]. simpl.
  split; [apply length_imap|].
  intros k tc Hk. eexists. split.
  - rewrite list_lookup_imap, Hk. reflexivity.
  - simpl. split; [reflexivity|]. split; [reflexivity|].
    split; [reflexivity|]. rewrite bool_decide_eq_true. split.
    + intros Hs. destruct (strip_decompose
                             (get_or_empty (tc_expected_output tc)))
        as (l & r & Hl & Hr & Hd & _).
      rewrite <- Hs in Hd. simpl in Hd. rewrite Hd.
      apply blank_app; assumption.
    + intros Hb. symmetry. unfold strip.
      rewrite lstrip_all_blank by exact Hb. reflexivity.
Qed.

(** X19.  When a run raises, [check_solution] raises too and there is no
    report: with a first test case and a host on which [tempfile.mkdtemp]
    fails, the exception of [mkdtemp] reaches the caller of
    [check_solution]. *)
Theorem check_solution_raises w source_code language test_case test_cases
    time_limit h config e :
  lang_config (sys_executable w) !! language = Some config ->
  mkdtemp w = inl e ->
  check_solution w source_code language (test_case :: test_cases)
    time_limit h = (Raised e, logged Mkdtemp h).
Proof.
  intros Hl He. unfold check_solution, bind. cbn [check_loop].
  unfold bind. rewrite (mkdtemp_failure_reaches_caller _ _ _ _ _ _ _ _ _ _ Hl He).
  reflexivity.
Qed.

(** ** The callers in [api/questions.py] *)

(** X20.  [run_code] answers a language that is not supported with the HTTP
    error 400 and the message ["Unsupported language: ..."], before anything
    is asked of the host or of [execute_code]. *)
Theorem run_code_rejects_unsupported w source_code language stdin h :
  language ∉ supported_languages ->
  run_code w source_code language stdin h =
  (Returned (inl {| status_code := 400;
                    detail := lit "Unsupported language: " ++ language |}),
   h).
Proof.
  intros Hn. unfold run_code.
  rewrite decide_False by exact Hn. reflexivity.
Qed.

Lemma run_code_rejects_unsupported_ruby :
  run_code hello (lit "puts 1") (lit "ruby") None idle =
  (Returned (inl {| status_code := 400;
                    detail := lit "Unsupported language: " ++ lit "ruby" |}),
   idle).
Proof.
  apply (run_code_rejects_unsupported hello (lit "puts 1") (lit "ruby") None
           idle).
  apply (bool_decide_unpack _). vm_compute. exact I.
Defined.

(** X21.  For a supported language what [run_code] returns is a response,
    never the HTTP error; its status is one of the seven of [execute_code],
    and its [time] and [memory] are always absent. *)
Theorem run_code_response w source_code language stdin h x h' :
  language ∈ supported_languages ->
  run_code w source_code language stdin h = (Returned x, h') ->
  exists r resp,
    x = inr resp
    /\ execute_code w source_code language stdin None default_time_limit
         default_memory_limit h = (Returned r, h')
    /\ run_stdout resp = stdout r /\ run_stderr resp = stderr r
    /\ run_compile_output resp = compile_output r
    /\ run_status resp = status r
    /\ run_status resp ∈
         [ lit "Accepted"; lit "Runtime Error"; lit "Compilation Error";
           lit "Time Limit Exceeded"; lit "Compiler Not Found";
           lit "Runtime Not Found"; lit "Error" ]
    /\ run_time resp = None /\ run_memory resp = None.
Proof.
  intros Hin. unfold run_code. rewrite decide_True by exact Hin.
  unfold bind.
  destruct (execute_code w source_code language stdin None default_time_limit
              default_memory_limit h) as [[r|e] h1] eqn:E; [|discriminate].
  intros [= <- <-]. exists r. eexists. split; [reflexivity|].
  split; [reflexivity|]. simpl.
  pose proof (execute_code_shaped _ _ _ _ _ _ _ _ _ _ E) as Hs.
  destruct (shaped_measurement r Hs) as [Ht Hm].
  do 4 (split; [reflexivity|]). split; [|split; assumption].
  pose proof (shaped_status r Hs) as Hst.
  apply (list_elem_of_fmap_2 fst) in Hst. exact Hst.
Qed.

(** ** How [submit_code] decides *)

Lemma startswith_nil p : startswith [] p = true -> p = [].
Proof. destruct p; [reflexivity|discriminate]. Qed.

(** X22.  When the expected answer is empty, or starts with one of the five
    words that make it look like code once the white space at its ends is
    gone, the output is not looked at: the submission is correct exactly
    when the status id of the run is 3. *)
Theorem grade_without_comparison r correct_answer :
  correct_answer = [] \/ looks_like_code (strip correct_answer) = true ->
  grade r correct_answer = (status_id r =? 3)%Z.
Proof.
  intros H. unfold grade. destruct (status_id r =? 3)%Z; [|reflexivity].
  destruct H as [->|H]; [reflexivity|].
  destruct (truthy correct_answer); [|reflexivity]. simpl.
  rewrite H. reflexivity.
Qed.

Lemma grade_without_comparison_def :
  grade (accepted (lit "anything")) (lit "def solve(n): return n")
  = (status_id (accepted (lit "anything")) =? 3)%Z.
Proof.
  apply (grade_without_comparison (accepted (lit "anything"))
           (lit "def solve(n): return n")).
  right. vm_compute. reflexivity.
Defined.



(** X24.  A submission is only recorded as correct, and only earns the
    reward of the question, when its run ended with exit code 0 and status
    ["Accepted"]; one that is not correct earns nothing. *)
Theorem correct_attempt_was_accepted w source_code language correct_answer
    xp_reward h r row h' :
  submit_attempt w source_code language correct_answer xp_reward h
    = (Returned (r, row), h') ->
  (is_correct row = true ->
   status r = lit "Accepted" /\ exit_code r = Some 0%Z
   /\ xp_earned row = xp_reward)
  /\ (is_correct row = false -> xp_earned row = 0%Z).
Proof.
  unfold submit_attempt, bind.
  destruct (execute_code w source_code language None None default_time_limit
              default_memory_limit h) as [[r0|e] h1] eqn:E; [|discriminate].
  intros [= <- <- <-]. simpl.
  pose proof (execute_code_shaped _ _ _ _ _ _ _ _ _ _ E) as Hs.
  destruct (shaped_accepted r0 Hs) as [Ha He].
  split.
  - intros Hg. rewrite Hg.
    assert (Hid : status_id r0 = 3%Z).
    { unfold grade in Hg. destruct (status_id r0 =? 3)%Z eqn:Eid.
      - apply Z.eqb_eq, Eid.
      - discriminate Hg. }
    split; [apply Ha, Hid|]. split; [apply He, Hid|reflexivity].
  - intros ->. reflexivity.
Qed.

(** X25.  [submit_code] does not check the language: for one that is not
    supported nothing is asked of the host, and the attempt is recorded as
    incorrect, with no reward. *)
Theorem unsupported_language_attempt w source_code language correct_answer
    xp_reward h :
  language ∉ supported_languages ->
  submit_attempt w source_code language correct_answer xp_reward h =
  (Returned
     (failure (lit "Error") (-1) (lit "Unsupported language: " ++ language),
      {| user_answer :=
           lit "[" ++ language ++ lit "]" ++ [10%N] ++ take 500 source_code;
         is_correct := false; time_taken_seconds := 0; xp_earned := 0 |}),
   h).
Proof.
  intros Hn. unfold submit_attempt, bind, execute_code.
  apply LANGUAGE_MAP_keys in Hn. rewrite Hn. reflexivity.
Qed.

Lemma unsupported_language_attempt_ruby :
  submit_attempt hello (lit "puts 42") (lit "ruby") (lit "42") 10 idle =
  (Returned
     (failure (lit "Error") (-1)
        (lit "Unsupported language: " ++ lit "ruby"),
      {| user_answer :=
           lit "[" ++ lit "ruby" ++ lit "]" ++ [10%N]
           ++ take 500 (lit "puts 42");
         is_correct := false; time_taken_seconds := 0; xp_earned := 0 |}),
   idle).
Proof.
  apply (unsupported_language_attempt hello (lit "puts 42") (lit "ruby")
           (lit "42") 10 idle).
  apply (bool_decide_unpack _). vm_compute. exact I.
Defined.

(** ** Text through a program and back *)

Lemma to_N_byte_of (n : N) : (n < 256)%N -> Byte.to_N (byte_of n) = n.
Proof.
  intros Hn. unfold byte_of. destruct (Byte.of_N n) as [b|] eqn:E.
  - apply Byte.to_of_N, E.
  - apply Byte.of_N_None_iff in E. lia.
Qed.

Ltac compare_all :=
  repeat match goal with
         | |- context [(?x <? ?y)%N] => destruct (N.ltb_spec x y); try lia
         | |- context [(?x <=? ?y)%N] => destruct (N.leb_spec x y); try lia
         end.

Lemma encode_cp_decode (c : N) (bs rest : bytes) :
  encode_cp c = Some bs ->
  decode (bs ++ rest) = option_map (cons c) (decode rest).
Proof.
  unfold encode_cp, is_surrogate.
  assert (E1 : (c / 4096 = c / 64 / 64)%N)
    by (rewrite N.Div0.div_div; reflexivity).
  assert (E2 : (c / 262144 = c / 64 / 64 / 64)%N)
    by (rewrite !N.Div0.div_div; reflexivity).
  rewrite E1, E2.
  pose proof (N.div_mod' c 64) as D0.
  pose proof (N.mod_lt c 64) as L0.
  pose proof (N.div_mod' (c / 64) 64) as D1.
  pose proof (N.mod_lt (c / 64) 64) as L1.
  pose proof (N.div_mod' (c / 64 / 64) 64) as D2.
  pose proof (N.mod_lt (c / 64 / 64) 64) as L2.
  set (a := (c / 64)%N) in *. set (r0 := (c mod 64)%N) in *.
  set (b := (a / 64)%N) in *. set (r1 := (a mod 64)%N) in *.
  set (e := (b / 64)%N) in *. set (r2 := (b mod 64)%N) in *.
  clearbody a r0 b r1 e r2.
  assert (L0' : (r0 < 64)%N) by (apply L0; discriminate).
  assert (L1' : (r1 < 64)%N) by (apply L1; discriminate).
  assert (L2' : (r2 < 64)%N) by (apply L2; discriminate).
  clear L0 L1 L2 E1 E2.
  destruct (N.ltb_spec c 128).
  { intros [= <-]. cbn [app decode]. rewrite to_N_byte_of by lia.
    compare_all; reflexivity. }
  destruct (N.ltb_spec c 2048).
  { intros [= <-]. cbn [app decode]. rewrite !to_N_byte_of by lia.
    unfold is_cont. compare_all; cbn [andb]; do 2 f_equal; lia. }
  assert (Hmain :
    (c < 55296 \/ 57343 < c)%N ->
    (if (c <? 65536)%N
     then Some [byte_of (224 + b); byte_of (128 + r1); byte_of (128 + r0)]
     else if (c <=? 1114111)%N
          then Some [byte_of (240 + e); byte_of (128 + r2);
                     byte_of (128 + r1); byte_of (128 + r0)]
          else None) = Some bs ->
    decode (bs ++ rest) = option_map (cons c) (decode rest)).
  { intros Hns. destruct (N.ltb_spec c 65536).
    - intros [= <-]. cbn [app decode]. rewrite !to_N_byte_of by lia.
      unfold is_cont, is_surrogate.
      compare_all; cbn [andb negb]; do 2 f_equal; lia.
    - destruct (N.leb_spec c 1114111); [|discriminate].
      intros [= <-]. cbn [app decode]. rewrite !to_N_byte_of by lia.
      unfold is_cont. compare_all; cbn [andb]; do 2 f_equal; lia. }
  destruct (N.leb_spec 55296 c); destruct (N.leb_spec c 57343);
    cbn [andb]; try discriminate; apply Hmain; lia.
Qed.

(** What [encode] makes of a text, [decode] turns back into that text. *)
Lemma decode_encode (s : pystr) (b : bytes) :
  encode s = Some b -> decode b = Some s.
Proof.
  revert b. induction s as [|c s IH]; intros b; cbn [encode].
  - intros [= <-]. reflexivity.
  - destruct (encode_cp c) as [bs|] eqn:Ec; [|discriminate].
    destruct (encode s) as [rest|]; [|discriminate].
    intros [= <-]. rewrite (encode_cp_decode _ _ _ Ec).
    rewrite (IH rest eq_refl). reflexivity.
Qed.

(** X26.  A program that writes to its standard output the bytes it reads
    from its standard input, nothing to its standard error, and exits with
    code 0 in time gives back the input text as [stdout], code point for
    code point, with status ["Accepted"]. *)
Theorem echo_returns_stdin w source_code language (stdin : pystr)
    expected_output time_limit memory_limit h config d h2 p b t :
  stdin <> [] ->
  reaches_run w source_code language h config d h2 ->
  create_subprocess_exec w
    (run_command config language d (source_path config language d)) d
    = inr p ->
  encode stdin = Some b ->
  behave p (Some b) = Exits t b [] 0 ->
  (t <= run_timeout)%Q ->
  exists h',
    execute_code w source_code language (Some stdin) expected_output
      time_limit memory_limit h =
    (Returned {| stdout := Some stdin; stderr := None;
                 compile_output := None; status := lit "Accepted";
                 status_id := 3; time := None; memory := None;
                 exit_code := Some 0%Z |}, h').
Proof.
  intros Hne Hr Hs He Hb Ht.
  assert (Hb0 : b <> []).
  { intros ->. apply decode_encode in He. injection He as <-.
    contradiction. }
  assert (Hi : stdin_bytes w (Some stdin) = inr (Some b)).
  { unfold stdin_bytes, py_encode. destruct stdin; [contradiction|].
    rewrite He. reflexivity. }
  rewrite (execute_code_run_step _ _ _ _ _ _ _ _ _ _ _ Hr).
  rewrite (run_step_exit _ _ _ _ _ _ _ _ _ _ _ _ _ Hs Hi Hb Ht).
  cbv zeta. unfold decode_or_none at 1, py_decode.
  destruct b as [|x b]; [contradiction|].
  change (truthy (x :: b)) with true. cbv iota.
  rewrite (decode_encode _ _ He). change (decode_or_none w []) with
    (@inr exn (option pystr) None).
  eexists. reflexivity.
Qed.

Lemma echo_returns_stdin_cat :
  exists h',
    execute_code echoing
      (lit "import sys; sys.stdout.write(sys.stdin.read())") (lit "python")
      (Some [104%N; 233%N; 8364%N; 128512%N]) None default_time_limit
      default_memory_limit idle =
    (Returned {| stdout := Some [104%N; 233%N; 8364%N; 128512%N];
                 stderr := None;
                 compile_output := None; status := lit "Accepted";
                 status_id := 3; time := None; memory := None;
                 exit_code := Some 0%Z |}, h').
Proof.
  eapply (echo_returns_stdin echoing _ (lit "python") _ None
            default_time_limit default_memory_limit idle python_config tmp
            (python_ready _ _ idle)
            {| pid := 7;
               behave := fun input =>
                 match input with
                 | Some b => Exits (1 # 10) b [] 0
                 | None => Exits (1 # 10) [] [] 0
                 end |}
            [x68; xc3; xa9; xe2; x82; xac; xf0; x9f; x98; x80] (1 # 10)).
  - discriminate.
  - apply python_reaches_run.
  - reflexivity.
  - vm_compute. reflexivity.
  - reflexivity.
  - apply Qle_bool_iff. reflexivity.
Defined.

(** ** On concrete hosts *)

Lemma fields_follow_verdict_rejected :
  let r := rejected_result (lit "code.cpp:1:12: error: expected '}'") in
  (stdout r <> None -> status_id r = 3%Z \/ status_id r = 11%Z)
  /\ (compile_output r <> None <-> status_id r = 6%Z)
  /\ (status_id r = 6%Z -> stdout r = None /\ stderr r = None)
  /\ (exit_code r = None <-> status_id r = 5%Z \/ status_id r = (-1)%Z)
  /\ (exit_code r = None -> exists e, stderr r = Some e /\ e <> [])
  /\ stdout r <> Some [] /\ stderr r <> Some [].
Proof.
  apply (fields_follow_verdict
           (rejected (ascii_bytes "code.cpp:1:12: error: expected '}'"))
           (lit "int main() {") (lit "cpp") None None default_time_limit
           default_memory_limit idle
           (rejected_result (lit "code.cpp:1:12: error: expected '}'"))
           (snd (execute_code
                   (rejected (ascii_bytes "code.cpp:1:12: error: expected '}'"))
                   (lit "int main() {") (lit "cpp") None None
                   default_time_limit default_memory_limit idle))).
  vm_compute. reflexivity.
Defined.

Lemma compiler_not_found_verdict_cpp :
  exists h',
    execute_code nothing_installed (lit "int main() {}") (lit "cpp") None
      None default_time_limit default_memory_limit idle =
      (Returned (failure (lit "Compiler Not Found") (-1)
                   (lit "g++" ++ lit " not found. Please install "
                    ++ lit "g++" ++ lit " to run " ++ lit "cpp"
                    ++ lit " code locally.")), h')
    /\ log h' =
       Rmtree tmp
       :: Exec (compile_command [lit "g++"; lit "-o"] (lit "cpp") tmp
                  (source_path cpp_config (lit "cpp") tmp)) tmp
       :: WriteFile (source_path cpp_config (lit "cpp") tmp)
            (lit "int main() {}")
       :: Mkdtemp :: log idle.
Proof.
  apply (compiler_not_found_verdict nothing_installed (lit "int main() {}")
           (lit "cpp") None None default_time_limit default_memory_limit
           idle cpp_config (lit "g++") [lit "-o"] tmp
           (lit "[Errno 2] No such file or directory")); reflexivity.
Defined.

Lemma compile_timeout_verdict_cpp :
  exists h',
    execute_code (compiled Hangs Hangs) (lit "int main() {}") (lit "cpp")
      None None default_time_limit default_memory_limit idle =
      (Returned (failure (lit "Time Limit Exceeded") 5
                   (lit "Execution timed out (5 second limit)")), h')
    /\ 5%positive ∈ children h'
    /\ waited h' = (waited idle + compile_timeout)%Q
    /\ log h' =
       Rmtree tmp :: Communicate 5 None compile_timeout
       :: Exec (compile_command [lit "g++"; lit "-o"] (lit "cpp") tmp
                  (source_path cpp_config (lit "cpp") tmp)) tmp
       :: WriteFile (source_path cpp_config (lit "cpp") tmp)
            (lit "int main() {}")
       :: Mkdtemp :: log idle.
Proof.
  apply (compile_timeout_verdict (compiled Hangs Hangs) (lit "int main() {}")
           (lit "cpp") None None default_time_limit default_memory_limit
           idle cpp_config (lit "g++") [lit "-o"] tmp
           {| pid := 5; behave := fun _ => Hangs |}); reflexivity.
Defined.

Lemma runtime_not_found_verdict_python :
  exists runtime rest h',
    run_command python_config (lit "python") tmp
      (source_path python_config (lit "python") tmp) = runtime :: rest
    /\ execute_code nothing_installed (lit "print(1)") (lit "python") None
         None default_time_limit default_memory_limit idle =
       (Returned (failure (lit "Runtime Not Found") (-1)
                    (runtime ++ lit " not found. Please install it to run "
                     ++ lit "python" ++ lit " code locally.")), h')
    /\ log h' =
       Rmtree tmp
       :: Exec (run_command python_config (lit "python") tmp
                  (source_path python_config (lit "python") tmp)) tmp
       :: log (python_ready
                 (fun _ _ =>
                    inl (FileNotFoundError
                           (lit "[Errno 2] No such file or directory")))
                 (lit "print(1)") idle).
Proof.
  apply (runtime_not_found_verdict nothing_installed (lit "print(1)")
           (lit "python") None None default_time_limit default_memory_limit
           idle python_config tmp
           (python_ready _ (lit "print(1)") idle)
           (lit "[Errno 2] No such file or directory")).
  - apply python_reaches_run.
  - reflexivity.
Defined.

Lemma unencodable_stdin_abandons_process_surrogate :
  exists s h',
    Some [55296%N] = Some s /\ encode s = None
    /\ execute_code hello (lit "print('hello')") (lit "python")
         (Some [55296%N]) None default_time_limit default_memory_limit idle =
       (Returned (failure (lit "Error") (-1)
                    (lit "Execution error: " ++ encode_error hello s
                     ++ [10%N]
                     ++ format_exc hello
                          (OtherException (encode_error hello s)))), h')
    /\ 7%positive ∈ children h'
    /\ log h' =
       Rmtree tmp
       :: Exec (run_command python_config (lit "python") tmp
                  (source_path python_config (lit "python") tmp)) tmp
       :: log (python_ready
                 (fun _ _ =>
                    proc 7 (Exits (1 # 10) (ascii_bytes "hello
") [] 0))
                 (lit "print('hello')") idle).
Proof.
  apply (unencodable_stdin_abandons_process hello (lit "print('hello')")
           (lit "python") (Some [55296%N]) None default_time_limit
           default_memory_limit idle python_config tmp
           (python_ready _ (lit "print('hello')") idle)
           {| pid := 7;
              behave := fun _ => Exits (1 # 10) (ascii_bytes "hello
") [] 0 |}
           (OtherException (lit "'utf-8' codec can't encode character"))).
  - apply python_reaches_run.
  - reflexivity.
  - reflexivity.
Defined.

Lemma compiled_program_is_run_cpp :
  exists compiler h2,
    compile_command [lit "g++"; lit "-o"] (lit "cpp") tmp
      (source_path cpp_config (lit "cpp") tmp)
      = [ compiler; lit "-o"; path_join tmp (lit "program");
          path_join tmp (lit "code" ++ ext cpp_config) ]
    /\ run_command cpp_config (lit "cpp") tmp
         (source_path cpp_config (lit "cpp") tmp)
       = [ path_join tmp (lit "program") ]
    /\ reaches_run
         (compiled (Exits (1 # 2) [] [] 0) (Exits (1 # 10) [] [] 0))
         (lit "int main() {}") (lit "cpp") idle cpp_config tmp h2
    /\ log h2 =
       Communicate 5 None compile_timeout
       :: Exec [ compiler; lit "-o"; path_join tmp (lit "program");
                 path_join tmp (lit "code" ++ ext cpp_config) ] tmp
       :: WriteFile (path_join tmp (lit "code" ++ ext cpp_config))
            (lit "int main() {}")
       :: Mkdtemp :: log idle.
Proof.
  apply (compiled_program_is_run
           (compiled (Exits (1 # 2) [] [] 0) (Exits (1 # 10) [] [] 0))
           (lit "int main() {}") (lit "cpp") idle cpp_config
           [lit "g++"; lit "-o"] tmp
           {| pid := 5; behave := fun _ => Exits (1 # 2) [] [] 0 |}
           (1 # 2) [] []).
  - right. reflexivity.
  - reflexivity.
  - reflexivity.
  - reflexivity.
  - reflexivity.
  - reflexivity.
  - reflexivity.
  - apply Qle_bool_iff. reflexivity.
Defined.

Lemma hello_report_returned :
  check_solution hello (lit "print('hello')") (lit "python") hello_cases
    default_time_limit idle
  = (Returned hello_report,
     snd (check_solution hello (lit "print('hello')") (lit "python")
            hello_cases default_time_limit idle)).
Proof. vm_compute. reflexivity. Qed.

Lemma report_follows_test_cases_hello :
  total hello_report = length hello_cases
  /\ length (results hello_report) = length hello_cases
  /\ forall k test_case,
       hello_cases !! k = Some test_case ->
       exists c r h1 h2,
         results hello_report !! k = Some c
         /\ execute_code hello (lit "print('hello')") (lit "python")
              (Some (get_or_empty (tc_input test_case)))
              (tc_expected_output test_case) default_time_limit
              default_memory_limit h1 = (Returned r, h2)
         /\ r_test_case c = (k + 1)%nat
         /\ r_input c = get_or_empty (tc_input test_case)
         /\ r_expected c
            = strip (get_or_empty (tc_expected_output test_case))
         /\ r_actual c = strip (or_empty (stdout r))
         /\ r_status c = status r.
Proof.
  apply (report_follows_test_cases hello (lit "print('hello')")
           (lit "python") hello_cases default_time_limit idle hello_report
           (snd (check_solution hello (lit "print('hello')") (lit "python")
                   hello_cases default_time_limit idle))).
  vm_compute. reflexivity.
Defined.

Lemma report_counters_hello :
  passed hello_report
  = length (filter (fun c => r_passed c = true) (results hello_report))
  /\ (passed hello_report <= total hello_report)%nat
  /\ (all_passed hello_report = true <->
      Forall (fun c => r_passed c = true) (results hello_report)).
Proof.
  apply (report_counters hello (lit "print('hello')") (lit "python")
           hello_cases default_time_limit idle hello_report
           (snd (check_solution hello (lit "print('hello')") (lit "python")
                   hello_cases default_time_limit idle))).
  vm_compute. reflexivity.
Defined.

Lemma report_entries_are_trimmed_hello :
  trimmed (r_actual (hello_entry 2 (lit "bye") false))
  /\ trimmed (r_expected (hello_entry 2 (lit "bye") false))
  /\ (r_passed (hello_entry 2 (lit "bye") false) = true <->
      r_actual (hello_entry 2 (lit "bye") false)
      = r_expected (hello_entry 2 (lit "bye") false)).
Proof.
  apply (report_entries_are_trimmed hello (lit "print('hello')")
           (lit "python") hello_cases default_time_limit idle hello_report
           (snd (check_solution hello (lit "print('hello')") (lit "python")
                   hello_cases default_time_limit idle))
           (hello_entry 2 (lit "bye") false)).
  - vm_compute. reflexivity.
  - apply list_elem_of_further, list_elem_of_here.
Defined.

Lemma unsupported_language_report_ruby :
  exists report,
    check_solution hello (lit "puts 1") (lit "ruby")
      [ expecting (lit "1"); expecting (lit " ") ] default_time_limit idle
    = (Returned report, idle)
    /\ length (results report)
       = length [ expecting (lit "1"); expecting (lit " ") ]
    /\ forall k test_case,
         [ expecting (lit "1"); expecting (lit " ") ] !! k = Some test_case ->
         exists c,
           results report !! k = Some c
           /\ r_status c = lit "Error"
           /\ r_error c = Some (lit "Unsupported language: " ++ lit "ruby")
           /\ r_actual c = []
           /\ (r_passed c = true <->
               blank (get_or_empty (tc_expected_output test_case))).
Proof.
  apply (unsupported_language_report hello (lit "puts 1") (lit "ruby")
           [ expecting (lit "1"); expecting (lit " ") ] default_time_limit
           idle).
  apply (bool_decide_unpack _). vm_compute. exact I.
Defined.

Lemma check_solution_raises_no_tmp :
  check_solution no_tmp (lit "print('hello')") (lit "python")
    (expecting (lit "hello") :: []) default_time_limit idle
  = (Raised (FileNotFoundError
               (lit "[Errno 2] No usable temporary directory found")),
     logged Mkdtemp idle).
Proof.
  apply (check_solution_raises no_tmp (lit "print('hello')") (lit "python")
           (expecting (lit "hello")) [] default_time_limit idle
           python_config).
  - reflexivity.
  - reflexivity.
Defined.

Lemma run_code_response_hello :
  exists r resp,
    @inr HTTPException RunResponse
      {| run_stdout := Some (lit "hello
"); run_stderr := None; run_compile_output := None;
         run_status := lit "Accepted"; run_time := None;
         run_memory := None |} = inr resp
    /\ execute_code hello (lit "print('hello')") (lit "python") None None
         default_time_limit default_memory_limit idle
       = (Returned r,
          snd (run_code hello (lit "print('hello')") (lit "python") None
                 idle))
    /\ run_stdout resp = stdout r /\ run_stderr resp = stderr r
    /\ run_compile_output resp = compile_output r
    /\ run_status resp = status r
    /\ run_status resp ∈
         [ lit "Accepted"; lit "Runtime Error"; lit "Compilation Error";
           lit "Time Limit Exceeded"; lit "Compiler Not Found";
           lit "Runtime Not Found"; lit "Error" ]
    /\ run_time resp = None /\ run_memory resp = None.
Proof.
  apply (run_code_response hello (lit "print('hello')") (lit "python") None
           idle).
  - apply (bool_decide_unpack _). vm_compute. exact I.
  - vm_compute. reflexivity.
Defined.

Lemma correct_attempt_was_accepted_hello :
  (is_correct {| user_answer :=
                   lit "[" ++ lit "python" ++ lit "]" ++ [10%N]
                   ++ take 500 (lit "print('hello')");
                 is_correct := true; time_taken_seconds := 0;
                 xp_earned := 10 |} = true ->
   status (accepted (lit "hello
")) = lit "Accepted"
   /\ exit_code (accepted (lit "hello
")) = Some 0%Z
   /\ xp_earned {| user_answer :=
                     lit "[" ++ lit "python" ++ lit "]" ++ [10%N]
                     ++ take 500 (lit "print('hello')");
                   is_correct := true; time_taken_seconds := 0;
                   xp_earned := 10 |} = 10%Z)
  /\ (is_correct {| user_answer :=
                      lit "[" ++ lit "python" ++ lit "]" ++ [10%N]
                      ++ take 500 (lit "print('hello')");
                    is_correct := true; time_taken_seconds := 0;
                    xp_earned := 10 |} = false ->
      xp_earned {| user_answer :=
                     lit "[" ++ lit "python" ++ lit "]" ++ [10%N]
                     ++ take 500 (lit "print('hello')");
                   is_correct := true; time_taken_seconds := 0;
                   xp_earned := 10 |} = 0%Z).
Proof.
  apply (correct_attempt_was_accepted hello (lit "print('hello')")
           (lit "python") (lit "hello") 10 idle (accepted (lit "hello
"))
           {| user_answer :=
                lit "[" ++ lit "python" ++ lit "]" ++ [10%N]
                ++ take 500 (lit "print('hello')");
              is_correct := true; time_taken_seconds := 0;
              xp_earned := 10 |}
           (snd (submit_attempt hello (lit "print('hello')") (lit "python")
                   (lit "hello") 10 idle))).
  vm_compute. reflexivity.
Defined.
